(** * Race progression of the racing canvas and the leaderboard's win rate

    A shallow embedding of the race scene of [GameCanvas] (the session
    variables, [create], the checkpoint overlap callback, [update],
    [finishRace], [handlePause], [handleRestart]) and of the win-rate
    computations of [Leaderboard].

    JavaScript numbers that the code uses as counters are integers of [Z]
    (with [%] as [Z.rem]); numbers that carry positions, angles, speeds and
    times are idealised as real numbers.  Calls into the toast hook, the
    [onGameEnd] prop, the socket manager and the scene manager are recorded
    as a list of events, in the order in which the code makes them.

    The component function runs anew for every render: each render
    declares its own game variables and sees the state of that moment as
    constants.  A [Session] is what the functions of one render close
    over.  The engine holds [create] and [update] of the render in which
    the effect made the game; the buttons call [handlePause] and
    [handleRestart] of the latest render.  A [Component] keeps the two
    apart. *)

From Stdlib Require Import Reals Lra ZArith Lia List Bool String.
From Stdlib Require Import Permutation Sorted.
Import ListNotations.
Local Open Scope Z_scope.

(** ** Props, input and game objects *)

Inductive GameMode : Type := single | multiplayer.

(** [onGameEnd] is an optional prop: the flag tells whether it was given. *)
Record GameCanvasProps : Type := {
  gameMode : GameMode;
  onGameEnd : bool
}.

(** The [isDown] flags of the four cursor keys. *)
Record CursorKeys : Type := {
  left_isDown : bool;
  right_isDown : bool;
  up_isDown : bool;
  down_isDown : bool
}.

(** A rectangle game object with its arcade body: position, rotation, the
    body's velocity, drag and maximum velocity.  Size and colour play no
    part in the logic and are left out. *)
Record Rectangle : Type := {
  rect_x : R;
  rect_y : R;
  rotation : R;
  velocity_x : R;
  velocity_y : R;
  body_drag : R;
  body_maxVelocity : R
}.

(** [scene.add.rectangle(x, y, ...)] followed by [physics.add.existing]:
    no rotation, a body at rest with the engine's defaults. *)
Definition add_rectangle (x y : R) : Rectangle :=
  {| rect_x := x; rect_y := y; rotation := 0%R;
     velocity_x := 0%R; velocity_y := 0%R;
     body_drag := 0%R; body_maxVelocity := 10000%R |}.

Definition setDrag (d : R) (r : Rectangle) : Rectangle :=
  {| rect_x := rect_x r; rect_y := rect_y r; rotation := rotation r;
     velocity_x := velocity_x r; velocity_y := velocity_y r;
     body_drag := d; body_maxVelocity := body_maxVelocity r |}.

Definition setMaxVelocity (m : R) (r : Rectangle) : Rectangle :=
  {| rect_x := rect_x r; rect_y := rect_y r; rotation := rotation r;
     velocity_x := velocity_x r; velocity_y := velocity_y r;
     body_drag := body_drag r; body_maxVelocity := m |}.

Definition setVelocity (vx vy : R) (r : Rectangle) : Rectangle :=
  {| rect_x := rect_x r; rect_y := rect_y r; rotation := rotation r;
     velocity_x := vx; velocity_y := vy;
     body_drag := body_drag r; body_maxVelocity := body_maxVelocity r |}.

(** [Math.sqrt(velocity.x ** 2 + velocity.y ** 2)], as [update] computes
    the speed it sends to the server. *)
Definition speed (r : Rectangle) : R :=
  sqrt (velocity_x r * velocity_x r + velocity_y r * velocity_y r).

(** The direction of travel of a car: the code thrusts along
    [rotation - Math.PI / 2]. *)
Definition heading (r : Rectangle) : R := (rotation r - PI / 2)%R.

(** ** Events: the calls the scene makes to its collaborators *)

Record RaceResult : Type := {
  time : R;
  laps : Z;
  position : Z
}.

Record PlayerPosition : Type := {
  msg_x : R;
  msg_y : R;
  msg_rotation : R;
  msg_speed : R
}.

Inductive Event : Type :=
| ToastLapCompleted (lap : Z) (seconds : R)
| ToastRaceStarted
| ToastRaceFinished (finalTime : R)
| OnGameEnd (results : RaceResult)
| SocketFinishRace (raceId : string) (finalTime : R)
| SocketSendPlayerPosition (raceId : string) (p : PlayerPosition)
| SetTimeout (ms : Z)
| ScenePause
| SceneResume
| SceneRestart
| SetIsPaused (b : bool)
| SetGameLoaded (b : bool).

(** ** The session: the state and the game variables of one render *)

(** [isPaused] and [gameLoaded] are the values of the state that the
    render saw; the functions of the render read them and cannot write
    them.  [destroyedCars] is not a variable of the code but the engine's
    part in [aiCars]: the number of game objects at the head of that array
    that belong to an earlier run of the scene, which the engine has
    destroyed and which have no [body] any more. *)

Record Session : Type := {
  isPaused : bool;
  gameLoaded : bool;
  player : option Rectangle;
  aiCars : list Rectangle;
  raceStarted : bool;
  raceTime : R;
  checkpoints : list Rectangle;
  currentCheckpoint : Z;
  lapCount : Z;
  maxLaps : Z;
  destroyedCars : nat
}.

(** The variables as [GameCanvas] declares them; [player] is declared
    without a value. *)
Definition GameCanvas_variables : Session :=
  {| isPaused := false; gameLoaded := false;
     player := None; aiCars := [];
     raceStarted := false; raceTime := 0%R;
     checkpoints := []; currentCheckpoint := 0; lapCount := 0;
     maxLaps := 3; destroyedCars := 0 |}.

Definition set_isPaused (b : bool) (s : Session) : Session :=
  {| isPaused := b; gameLoaded := gameLoaded s;
     player := player s; aiCars := aiCars s;
     raceStarted := raceStarted s; raceTime := raceTime s;
     checkpoints := checkpoints s;
     currentCheckpoint := currentCheckpoint s; lapCount := lapCount s;
     maxLaps := maxLaps s; destroyedCars := destroyedCars s |}.

Definition set_gameLoaded (b : bool) (s : Session) : Session :=
  {| isPaused := isPaused s; gameLoaded := b;
     player := player s; aiCars := aiCars s;
     raceStarted := raceStarted s; raceTime := raceTime s;
     checkpoints := checkpoints s;
     currentCheckpoint := currentCheckpoint s; lapCount := lapCount s;
     maxLaps := maxLaps s; destroyedCars := destroyedCars s |}.

Definition set_player (p : option Rectangle) (s : Session) : Session :=
  {| isPaused := isPaused s; gameLoaded := gameLoaded s;
     player := p; aiCars := aiCars s;
     raceStarted := raceStarted s; raceTime := raceTime s;
     checkpoints := checkpoints s;
     currentCheckpoint := currentCheckpoint s; lapCount := lapCount s;
     maxLaps := maxLaps s; destroyedCars := destroyedCars s |}.

Definition set_aiCars (l : list Rectangle) (s : Session) : Session :=
  {| isPaused := isPaused s; gameLoaded := gameLoaded s;
     player := player s; aiCars := l;
     raceStarted := raceStarted s; raceTime := raceTime s;
     checkpoints := checkpoints s;
     currentCheckpoint := currentCheckpoint s; lapCount := lapCount s;
     maxLaps := maxLaps s; destroyedCars := destroyedCars s |}.

Definition set_raceStarted (b : bool) (s : Session) : Session :=
  {| isPaused := isPaused s; gameLoaded := gameLoaded s;
     player := player s; aiCars := aiCars s;
     raceStarted := b; raceTime := raceTime s;
     checkpoints := checkpoints s;
     currentCheckpoint := currentCheckpoint s; lapCount := lapCount s;
     maxLaps := maxLaps s; destroyedCars := destroyedCars s |}.

Definition set_raceTime (t : R) (s : Session) : Session :=
  {| isPaused := isPaused s; gameLoaded := gameLoaded s;
     player := player s; aiCars := aiCars s;
     raceStarted := raceStarted s; raceTime := t;
     checkpoints := checkpoints s;
     currentCheckpoint := currentCheckpoint s; lapCount := lapCount s;
     maxLaps := maxLaps s; destroyedCars := destroyedCars s |}.

Definition set_checkpoints (l : list Rectangle) (s : Session) : Session :=
  {| isPaused := isPaused s; gameLoaded := gameLoaded s;
     player := player s; aiCars := aiCars s;
     raceStarted := raceStarted s; raceTime := raceTime s;
     checkpoints := l;
     currentCheckpoint := currentCheckpoint s; lapCount := lapCount s;
     maxLaps := maxLaps s; destroyedCars := destroyedCars s |}.

Definition set_currentCheckpoint (i : Z) (s : Session) : Session :=
  {| isPaused := isPaused s; gameLoaded := gameLoaded s;
     player := player s; aiCars := aiCars s;
     raceStarted := raceStarted s; raceTime := raceTime s;
     checkpoints := checkpoints s;
     currentCheckpoint := i; lapCount := lapCount s;
     maxLaps := maxLaps s; destroyedCars := destroyedCars s |}.

Definition set_lapCount (n : Z) (s : Session) : Session :=
  {| isPaused := isPaused s; gameLoaded := gameLoaded s;
     player := player s; aiCars := aiCars s;
     raceStarted := raceStarted s; raceTime := raceTime s;
     checkpoints := checkpoints s;
     currentCheckpoint := currentCheckpoint s; lapCount := n;
     maxLaps := maxLaps s; destroyedCars := destroyedCars s |}.

Definition set_maxLaps (n : Z) (s : Session) : Session :=
  {| isPaused := isPaused s; gameLoaded := gameLoaded s;
     player := player s; aiCars := aiCars s;
     raceStarted := raceStarted s; raceTime := raceTime s;
     checkpoints := checkpoints s;
     currentCheckpoint := currentCheckpoint s; lapCount := lapCount s;
     maxLaps := n; destroyedCars := destroyedCars s |}.

Definition set_destroyedCars (n : nat) (s : Session) : Session :=
  {| isPaused := isPaused s; gameLoaded := gameLoaded s;
     player := player s; aiCars := aiCars s;
     raceStarted := raceStarted s; raceTime := raceTime s;
     checkpoints := checkpoints s;
     currentCheckpoint := currentCheckpoint s; lapCount := lapCount s;
     maxLaps := maxLaps s; destroyedCars := n |}.

(** [checkpoints.length] *)
Definition checkpoints_length (s : Session) : Z :=
  Z.of_nat (List.length (checkpoints s)).

(** [a[i]] for an integer [i]: [None] stands for [undefined]. *)
Definition array_get {A : Type} (a : list A) (i : Z) : option A :=
  if i <? 0 then None else nth_error a (Z.to_nat i).

(** How a callback ends: it returns, or a [TypeError] aborts it.  Either
    way the game variables keep what was written to them so far. *)
Inductive Outcome : Type :=
| Returned (s : Session) (events : list Event)
| Threw (s : Session) (events : list Event).

Definition outcome_session (o : Outcome) : Session :=
  match o with Returned s _ => s | Threw s _ => s end.

Definition outcome_events (o : Outcome) : list Event :=
  match o with Returned _ ev => ev | Threw _ ev => ev end.

(** ** [finishRace] and the checkpoint overlap callback *)

(** The calls of [finishRace], for the final time and lap count it reads:
    the toast, [onGameEnd] when the prop was given, and the socket message
    in multiplayer mode. *)
Definition finishRace_calls (props : GameCanvasProps) (finalTime : R)
  (lapCount : Z) : list Event :=
  [ToastRaceFinished finalTime]
  ++ (if onGameEnd props
      then [OnGameEnd {| time := finalTime; laps := lapCount;
                         position := 1 |}]
      else [])
  ++ (match gameMode props with
      | multiplayer => [SocketFinishRace "current-race" finalTime]
      | single => []
      end).

Definition finishRace (props : GameCanvasProps) (s : Session)
  : Session * list Event :=
  let s1 := set_raceStarted false s in
  let finalTime := (raceTime s1 / 1000)%R in
  (s1, finishRace_calls props finalTime (lapCount s1)).

(** The callback that [create] registers for the checkpoint at [index]
    ([checkpoints.forEach] gives every index below [checkpoints.length]),
    run once for each step in which the player overlaps that checkpoint.
    A callback exists only when there is a checkpoint, so [%] never meets
    a length of 0 here, where [Z.rem] and JavaScript differ. *)
Definition checkpointOverlap (props : GameCanvasProps) (index : Z)
  (s : Session) : Session * list Event :=
  if index =? currentCheckpoint s then
    let s1 :=
      set_currentCheckpoint
        (Z.rem (currentCheckpoint s + 1) (checkpoints_length s)) s in
    if currentCheckpoint s1 =? 0 then
      let s2 := set_lapCount (lapCount s1 + 1) s1 in
      let toast := ToastLapCompleted (lapCount s2) (raceTime s2 / 1000)%R in
      if lapCount s2 >=? maxLaps s2 then
        let '(s3, ev) := finishRace props s2 in (s3, toast :: ev)
      else (s2, [toast])
    else (s1, [])
  else (s, []).

(** The countdown timer that [create] starts with [setTimeout]. *)
Definition raceCountdown (s : Session) : Session * list Event :=
  (set_raceStarted true s, [ToastRaceStarted]).

(** ** [handlePause] and [handleRestart] *)

(** Both handlers belong to a render and work on its session [s]; [game]
    tells whether [phaserGameRef.current] holds a game, which it does
    while the component is mounted. *)

(** [handlePause] asks for the state [!isPaused] and, for the [isPaused]
    of its render, resumes or pauses the scene.  It writes no variable. *)
Definition handlePause (game : bool) (s : Session) : list Event :=
  SetIsPaused (negb (isPaused s))
  :: (if game then [if isPaused s then SceneResume else ScenePause]
      else []).

(** [handleRestart] restarts the scene, asks for the state [false] and
    assigns four variables of its render. *)
Definition handleRestartIf (game : bool) (s : Session)
  : Session * list Event :=
  (set_lapCount 0
     (set_currentCheckpoint 0 (set_raceTime 0%R (set_raceStarted false s))),
   (if game then [SceneRestart] else []) ++ [SetIsPaused false]).

Definition handleRestart (s : Session) : Session * list Event :=
  handleRestartIf true s.

(** ** [create] *)

Definition checkpointPositions : list (R * R) :=
  [(600, 100); (700, 288); (600, 476); (200, 476); (100, 288)]%R.

(** [create] pushes the five checkpoints, makes the player car, in single
    mode pushes three AI cars, asks for the state [gameLoaded] and starts
    the countdown timer.  It reads neither [maxLaps] nor
    [currentCheckpoint] and has no [throw]. *)
Definition create (props : GameCanvasProps) (s : Session) : Outcome :=
  let s1 :=
    set_checkpoints
      (checkpoints s
       ++ map (fun pos => add_rectangle (fst pos) (snd pos))
            checkpointPositions) s in
  let s2 :=
    set_player
      (Some (setMaxVelocity 300 (setDrag 100 (add_rectangle 120 150)))) s1 in
  let s3 :=
    match gameMode props with
    | single =>
        set_aiCars
          (aiCars s2
           ++ map (fun i : nat =>
                     setMaxVelocity 250
                       (setDrag 80 (add_rectangle 120 (180 + INR i * 30))))
                [0; 1; 2]%nat) s2
    | multiplayer => s2
    end in
  Returned s3 [SetGameLoaded true; SetTimeout 3000].

(** ** [update] *)

(** What one frame brings in: the keys held, whether the socket is
    connected, and the time since the last frame. *)
Record Frame : Type := {
  frame_cursors : CursorKeys;
  frame_connected : bool;
  frame_delta : R
}.

Section Engine.

(** Two functions of the game engine, which is not part of this
    repository: the normalisation that the [rotation] setter of a game
    object applies to the angle it is given, and
    [Phaser.Math.Angle.Between(x1, y1, x2, y2)]. *)
Variable WrapAngle : R -> R.
Variable AngleBetween : R -> R -> R -> R -> R.

Definition set_rotation (a : R) (r : Rectangle) : Rectangle :=
  {| rect_x := rect_x r; rect_y := rect_y r; rotation := WrapAngle a;
     velocity_x := velocity_x r; velocity_y := velocity_y r;
     body_drag := body_drag r; body_maxVelocity := body_maxVelocity r |}.

Local Open Scope R_scope.

(** The four [if]s on the cursor keys, in the order of the source. *)
Definition playerControls (cursors : CursorKeys) (p : Rectangle)
  : Rectangle :=
  let p1 :=
    if left_isDown cursors then set_rotation (rotation p - 1 / 10) p
    else p in
  let p2 :=
    if right_isDown cursors then set_rotation (rotation p1 + 1 / 10) p1
    else p1 in
  let p3 :=
    if up_isDown cursors then
      setVelocity (cos (rotation p2 - PI / 2) * 300)
                  (sin (rotation p2 - PI / 2) * 300) p2
    else p2 in
  if down_isDown cursors then
    setVelocity (cos (rotation p3 - PI / 2) * -150)
                (sin (rotation p3 - PI / 2) * -150) p3
  else p3.

(** The body of the [aiCars.forEach] callback, once the target checkpoint
    is known. *)
Definition aiMove (targetCheckpoint : Rectangle) (index : nat)
  (aiCar : Rectangle) : Rectangle :=
  let angle :=
    AngleBetween (rect_x aiCar) (rect_y aiCar)
      (rect_x targetCheckpoint) (rect_y targetCheckpoint) in
  let aiCar1 := set_rotation (angle + PI / 2) aiCar in
  let speed := 200 + INR index * 20 in
  setVelocity (cos angle * speed) (sin angle * speed) aiCar1.

(** What the callback has done to a car without a body when it throws:
    the rotation is set, the velocity is not. *)
Definition aiTurn (targetCheckpoint : Rectangle) (aiCar : Rectangle)
  : Rectangle :=
  set_rotation
    (AngleBetween (rect_x aiCar) (rect_y aiCar)
       (rect_x targetCheckpoint) (rect_y targetCheckpoint) + PI / 2) aiCar.

(** [aiCars.forEach((aiCar, index) => ...)] from [index] on, with the
    cars as the loop leaves them and whether it threw.  The target is
    [checkpoints[currentCheckpoint]], the same in every iteration; when it
    is [undefined], reading its [x] throws before the car is touched.  A
    car among the first [destroyed] of the array has no body:
    [aiBody.setVelocity] throws for it, after its rotation was set.  The
    cars after the one that threw are not reached. *)
Fixpoint aiCars_forEach (destroyed : nat)
  (targetCheckpoint : option Rectangle) (index : nat)
  (cars : list Rectangle) : list Rectangle * bool :=
  match cars with
  | [] => ([], false)
  | aiCar :: rest =>
      match targetCheckpoint with
      | None => (cars, true)
      | Some target =>
          if (index <? destroyed)%nat then (aiTurn target aiCar :: rest, true)
          else
            let '(rest', thrown) :=
              aiCars_forEach destroyed targetCheckpoint (S index) rest in
            (aiMove target index aiCar :: rest', thrown)
      end
  end.

(** [update].  The player car is the object that the last [create] made
    and gave a body, so [player.body] is there whenever the engine calls
    [update]. *)
Definition update (props : GameCanvasProps) (cursors : CursorKeys)
  (connected : bool) (delta : R) (s : Session) : Outcome :=
  if negb (raceStarted s) || isPaused s then Returned s [] else
  let s1 := set_raceTime (raceTime s + delta) s in
  match player s1 with
  | None => Threw s1 []
  | Some p =>
      let s2 := set_player (Some (playerControls cursors p)) s1 in
      match gameMode props with
      | single =>
          let '(cars, thrown) :=
            aiCars_forEach (destroyedCars s2)
              (array_get (checkpoints s2) (currentCheckpoint s2))
              0 (aiCars s2) in
          if thrown then Threw (set_aiCars cars s2) []
          else Returned (set_aiCars cars s2) []
      | multiplayer =>
          Returned s2
            (if connected then
               [SocketSendPlayerPosition "current-race"
                  {| msg_x := rect_x (playerControls cursors p);
                     msg_y := rect_y (playerControls cursors p);
                     msg_rotation := rotation (playerControls cursors p);
                     msg_speed := speed (playerControls cursors p) |}]
             else [])
      end
  end.

(** One call of [update] for each frame of a list, on the variables as
    the call before left them. *)
Fixpoint ticks (props : GameCanvasProps) (frames : list Frame)
  (s : Session) : Session * list Event :=
  match frames with
  | [] => (s, [])
  | f :: rest =>
      let o :=
        update props (frame_cursors f) (frame_connected f)
          (frame_delta f) s in
      let '(s', ev) := ticks props rest (outcome_session o) in
      (s', (outcome_events o ++ ev)%list)
  end.

End Engine.

(** ** Instances of the engine's functions *)

(** The normalisation of an angle that is already within the principal
    range: the angle itself. *)
Definition principalAngle (a : R) : R := a.

(** [Math.atan2(y, x)] and, from it, the angle between two points. *)
Definition atan2 (y x : R) : R :=
  if Rlt_dec 0 x then atan (y / x)
  else if Rlt_dec x 0 then
    (if Rle_dec 0 y then atan (y / x) + PI else atan (y / x) - PI)%R
  else if Rlt_dec 0 y then (PI / 2)%R
  else if Rlt_dec y 0 then (- PI / 2)%R
  else 0%R.

Definition angleBetween (x1 y1 x2 y2 : R) : R := atan2 (y2 - y1) (x2 - x1).

(** Frames of [delta] milliseconds with the given keys held. *)
Definition frame (cursors : CursorKeys) (delta : R) : Frame :=
  {| frame_cursors := cursors; frame_connected := false;
     frame_delta := delta |}.

Definition noKeys : CursorKeys :=
  {| left_isDown := false; right_isDown := false;
     up_isDown := false; down_isDown := false |}.

Definition leftKey : CursorKeys :=
  {| left_isDown := true; right_isDown := false;
     up_isDown := false; down_isDown := false |}.

Definition upKey : CursorKeys :=
  {| left_isDown := false; right_isDown := false;
     up_isDown := true; down_isDown := false |}.

(** ** Runs of checkpoint entries *)

(** The player enters the checkpoint that is expected next. *)
Definition enterExpected (props : GameCanvasProps) (s : Session)
  : Session * list Event :=
  checkpointOverlap props (currentCheckpoint s) s.

(** The session after [k] entries, each of the checkpoint expected then. *)
Fixpoint inOrder (props : GameCanvasProps) (k : nat) (s : Session)
  : Session :=
  match k with
  | O => s
  | S k' => fst (enterExpected props (inOrder props k' s))
  end.

(** The events of the [k]-th such entry, counted from 1. *)
Definition inOrderEvents (props : GameCanvasProps) (k : nat) (s : Session)
  : list Event :=
  match k with
  | O => []
  | S k' => snd (enterExpected props (inOrder props k' s))
  end.

(** The player stays on the checkpoint at [index] for [n] steps: its
    overlap callback runs [n] times in a row.  The result is the session
    at the end and the events of all the runs. *)
Fixpoint occupy (props : GameCanvasProps) (index : Z) (n : nat)
  (s : Session) : Session * list Event :=
  match n with
  | O => (s, [])
  | S n' =>
      let '(s1, ev1) := checkpointOverlap props index s in
      let '(s2, ev2) := occupy props index n' s1 in
      (s2, ev1 ++ ev2)
  end.

(** A session in which the race has just started: nothing counted yet. *)
Definition freshRacing (s : Session) : Prop :=
  raceStarted s = true /\ currentCheckpoint s = 0 /\ lapCount s = 0.

(** The props of a single-player and of a multiplayer game, each with an
    [onGameEnd] callback. *)
Definition singleProps : GameCanvasProps :=
  {| gameMode := single; onGameEnd := true |}.

Definition multiplayerProps : GameCanvasProps :=
  {| gameMode := multiplayer; onGameEnd := true |}.

(** The session of the source when [create] has run on the variables as
    declared, before and after the countdown has elapsed. *)
Definition createdSession (props : GameCanvasProps) : Session :=
  outcome_session (create props GameCanvas_variables).

Definition startedSession (props : GameCanvasProps) : Session :=
  fst (raceCountdown (createdSession props)).

(** ** Leaderboard: the win rate *)

Record Player : Type := {
  total_races : Z;
  wins : Z;
  best_time : R
}.

(** The quotient of two integers; [None] marks a division by zero, so
    that a computation that never yields [None] never divides by zero. *)
Definition divide (a b : Z) : option R :=
  if b =? 0 then None else Some (IZR a / IZR b)%R.

Section Leaderboard.

(** [n.toFixed(digits)], a JavaScript built-in. *)
Variable toFixed : R -> nat -> string.

Definition getWinRate (wins totalRaces : Z) : option string :=
  if totalRaces =? 0 then Some "0%"%string
  else
    match divide wins totalRaces with
    | Some q => Some (toFixed (q * 100)%R 1 ++ "%")%string
    | None => None
    end.

End Leaderboard.

(** [a.total_races > 0 ? (a.wins / a.total_races) * 100 : 0] *)
Definition winRate (a : Player) : option R :=
  if total_races a >? 0 then
    match divide (wins a) (total_races a) with
    | Some q => Some (q * 100)%R
    | None => None
    end
  else Some 0%R.

(** The comparator of the [winrate] tab. *)
Definition compareWinRate (a b : Player) : option R :=
  match winRate a, winRate b with
  | Some winRateA, Some winRateB => Some (winRateB - winRateA)%R
  | _, _ => None
  end.

(** ** Leaderboard: the tabs, their comparators and the sort *)

(** A JavaScript number as the comparators produce it: a real number, an
    infinity, or [NaN]. *)
Inductive Number : Type :=
| Finite (r : R)
| Infinity
| NegInfinity
| NaN.

(** [a - b] on such numbers. *)
Definition Number_minus (a b : Number) : Number :=
  match a, b with
  | NaN, _ | _, NaN => NaN
  | Finite x, Finite y => Finite (x - y)
  | Finite _, Infinity => NegInfinity
  | Finite _, NegInfinity => Infinity
  | Infinity, Infinity => NaN
  | Infinity, _ => Infinity
  | NegInfinity, NegInfinity => NaN
  | NegInfinity, _ => NegInfinity
  end.

(** [best_time || Infinity]: a best time of 0, which is how a missing
    time reads, gives [Infinity]. *)
Definition orInfinity (best_time : R) : Number :=
  if Req_dec_T best_time 0 then Infinity else Finite best_time.

(** The comparator that the [switch] of [fetchLeaderboard] passes to
    [sort] for the selected tab; [None] for a tab that the [switch] has no
    case for, where nothing is sorted.  In the [winrate] case a division
    by zero would give a number that is not finite; [compareWinRate] has
    none. *)
Definition tabComparator (selectedTab : string)
  : option (Player -> Player -> Number) :=
  if String.eqb selectedTab "overall" then
    Some (fun a b =>
            Number_minus (orInfinity (best_time a))
              (orInfinity (best_time b)))
  else if String.eqb selectedTab "wins" then
    Some (fun a b => Finite (IZR (wins b - wins a)))
  else if String.eqb selectedTab "races" then
    Some (fun a b => Finite (IZR (total_races b - total_races a)))
  else if String.eqb selectedTab "winrate" then
    Some (fun a b =>
            match compareWinRate a b with
            | Some diff => Finite diff
            | None => NaN
            end)
  else None.

(** How [Array.prototype.sort] reads the result [v] of the comparator for
    [(a, b)]: [a] goes after [b] when [v > 0], before it when [v < 0];
    [NaN] counts as [+0]. *)
Definition positive (v : Number) : bool :=
  match v with
  | Finite r => if Rlt_dec 0 r then true else false
  | Infinity => true
  | NegInfinity | NaN => false
  end.

Definition negative (v : Number) : bool :=
  match v with
  | Finite r => if Rlt_dec r 0 then true else false
  | NegInfinity => true
  | Infinity | NaN => false
  end.

(** [Array.prototype.sort(comparefn)].  The sort is stable, so with a
    consistent comparator its result is the one ordering of the elements
    in which no element goes after a later one and equal elements keep
    their order; inserting the elements from the last to the first, each
    one past the elements it goes after, computes it. *)
Fixpoint sort_insert {A : Type} (comparefn : A -> A -> Number) (x : A)
  (sorted : list A) : list A :=
  match sorted with
  | [] => [x]
  | y :: rest =>
      if positive (comparefn x y) then y :: sort_insert comparefn x rest
      else x :: sorted
  end.

Fixpoint Array_sort {A : Type} (comparefn : A -> A -> Number)
  (a : list A) : list A :=
  match a with
  | [] => []
  | x :: rest => sort_insert comparefn x (Array_sort comparefn rest)
  end.

(** What [getLeaderboard] comes back with: a rejected promise, or
    [{ data, error }] with [data] possibly [null] and [error] given as
    whether it is set. *)
Inductive LeaderboardResponse : Type :=
| Rejected
| Resolved (data : option (list Player)) (error : bool).

Record LeaderboardState : Type := {
  topPlayers : list Player;
  loading : bool;
  selectedTab : string
}.

(** [fetchLeaderboard] once the response is there.  A set [error] is
    thrown and caught like a rejection: [topPlayers] keeps its value;
    [finally] clears [loading] on every path. *)
Definition fetchLeaderboard (response : LeaderboardResponse)
  (st : LeaderboardState) : LeaderboardState :=
  match response with
  | Resolved data false =>
      let sortedData := match data with Some d => d | None => [] end in
      {| topPlayers :=
           match tabComparator (selectedTab st) with
           | Some comparefn => Array_sort comparefn sortedData
           | None => sortedData
           end;
         loading := false;
         selectedTab := selectedTab st |}
  | Resolved _ true | Rejected =>
      {| topPlayers := topPlayers st; loading := false;
         selectedTab := selectedTab st |}
  end.

(** The order of each tab: [a] may stand before [b]. *)
Definition rankedBefore (selectedTab : string) (a b : Player) : Prop :=
  if String.eqb selectedTab "overall" then
    best_time b = 0%R \/
    (best_time a <> 0%R /\ (best_time a <= best_time b)%R)
  else if String.eqb selectedTab "wins" then wins b <= wins a
  else if String.eqb selectedTab "races" then total_races b <= total_races a
  else if String.eqb selectedTab "winrate" then
    match winRate a, winRate b with
    | Some rateA, Some rateB => (rateB <= rateA)%R
    | _, _ => False
    end
  else True.

(** ** Leaderboard: the rank of a row *)

Inductive RankIcon : Type :=
| TrophyIcon
| MedalIcon
| AwardIcon
| NumberIcon (position : Z).

Definition getRankIcon (position : Z) : RankIcon :=
  match position with
  | 1 => TrophyIcon
  | 2 => MedalIcon
  | 3 => AwardIcon
  | _ => NumberIcon position
  end.

Definition getRankBadge (position : Z) : string :=
  if position <=? 3 then "default"
  else if position <=? 10 then "secondary"
  else "outline".

(** ** The socket manager *)

(** What the manager reads of a socket of the socket library: whether it
    is connected, and its id. *)
Record Socket : Type := {
  socket_connected : bool;
  socket_id : option string
}.

Record SocketManager : Type := {
  socket : option Socket;
  reconnectAttempts : Z;
  maxReconnectAttempts : Z
}.

(** [new SocketManager()] *)
Definition socketManager : SocketManager :=
  {| socket := None; reconnectAttempts := 0; maxReconnectAttempts := 5 |}.

(** The getters [connected] and [id]. *)
Definition SocketManager_connected (m : SocketManager) : bool :=
  match socket m with
  | Some sk => socket_connected sk
  | None => false
  end.

Definition SocketManager_id (m : SocketManager) : option string :=
  match socket m with
  | Some sk => socket_id sk
  | None => None
  end.

(** [connect]: nothing when the socket is connected; otherwise the socket
    that [io] returns, here [fresh], takes the place of any socket there
    was. *)
Definition SocketManager_connect (fresh : Socket) (m : SocketManager)
  : SocketManager :=
  if SocketManager_connected m then m
  else {| socket := Some fresh;
          reconnectAttempts := reconnectAttempts m;
          maxReconnectAttempts := maxReconnectAttempts m |}.

Definition SocketManager_disconnect (m : SocketManager) : SocketManager :=
  {| socket := None;
     reconnectAttempts := reconnectAttempts m;
     maxReconnectAttempts := maxReconnectAttempts m |}.

(** The events that [setupEventListeners] listens to, and what its
    listeners do to the manager. *)
Inductive SocketEvent : Type :=
| on_connect
| on_disconnect
| on_connect_error
| on_reconnect.

Definition listener (e : SocketEvent) (m : SocketManager) : SocketManager :=
  match e with
  | on_connect =>
      {| socket := socket m; reconnectAttempts := 0;
         maxReconnectAttempts := maxReconnectAttempts m |}
  | on_connect_error =>
      {| socket := socket m; reconnectAttempts := reconnectAttempts m + 1;
         maxReconnectAttempts := maxReconnectAttempts m |}
  | on_disconnect | on_reconnect => m
  end.

Fixpoint listeners (events : list SocketEvent) (m : SocketManager)
  : SocketManager :=
  match events with
  | [] => m
  | e :: rest => listeners rest (listener e m)
  end.

(** The number of [connect_error] events of a list, and whether the list
    has a [connect] event. *)
Definition connectErrors (events : list SocketEvent) : Z :=
  Z.of_nat
    (List.length
       (filter (fun e => match e with on_connect_error => true | _ => false end)
          events)).

Definition hasConnect (events : list SocketEvent) : bool :=
  existsb (fun e => match e with on_connect => true | _ => false end) events.

(** What a call of [emit] puts on the socket. *)
Inductive Payload : Type :=
| RoomPayload (id : string)
| PositionPayload (raceId : string) (position : PlayerPosition)
| FinishPayload (raceId : string) (time : R).

Record Emitted : Type := {
  emitted_event : string;
  emitted_payload : Payload
}.

(** [this.socket?.emit(event, payload)] *)
Definition emit (m : SocketManager) (event : string) (payload : Payload)
  : list Emitted :=
  match socket m with
  | Some _ => [{| emitted_event := event; emitted_payload := payload |}]
  | None => []
  end.

Definition joinRoom (m : SocketManager) (roomId : string) : list Emitted :=
  emit m "join-room" (RoomPayload roomId).

Definition leaveRoom (m : SocketManager) (roomId : string) : list Emitted :=
  emit m "leave-room" (RoomPayload roomId).

Definition joinRace (m : SocketManager) (raceId : string) : list Emitted :=
  emit m "join-race" (RoomPayload raceId).

Definition startRace (m : SocketManager) (raceId : string) : list Emitted :=
  emit m "start-race" (RoomPayload raceId).

Definition sendPlayerPosition (m : SocketManager) (raceId : string)
  (position : PlayerPosition) : list Emitted :=
  emit m "player-position" (PositionPayload raceId position).

Definition SocketManager_finishRace (m : SocketManager) (raceId : string)
  (time : R) : list Emitted :=
  emit m "race-finish" (FinishPayload raceId time).

(** What the calls that a scene makes put on the socket: its calls of
    [sendPlayerPosition] and [finishRace] go to the manager, the others
    are not the manager's. *)
Definition onTheSocket (m : SocketManager) (e : Event) : list Emitted :=
  match e with
  | SocketSendPlayerPosition raceId position =>
      sendPlayerPosition m raceId position
  | SocketFinishRace raceId finalTime =>
      SocketManager_finishRace m raceId finalTime
  | _ => []
  end.

(** ** Ticks and overlap callbacks in any order *)

(** The time that a list of frames adds up to. *)
Fixpoint total_delta (frames : list Frame) : R :=
  match frames with
  | [] => 0%R
  | f :: rest => (frame_delta f + total_delta rest)%R
  end.

(** Whether a callback was aborted by a [TypeError]. *)
Definition threw (o : Outcome) : bool :=
  match o with Returned _ _ => false | Threw _ _ => true end.

(** What [update] leaves of a game object: its place and its body's
    settings. *)
Definition samePlace (r r' : Rectangle) : Prop :=
  rect_x r' = rect_x r /\ rect_y r' = rect_y r /\
  body_drag r' = body_drag r /\ body_maxVelocity r' = body_maxVelocity r.

Definition samePlayerPlace (p p' : option Rectangle) : Prop :=
  match p, p' with
  | Some r, Some r' => samePlace r r'
  | None, None => True
  | _, _ => False
  end.

(** The overlap callbacks of the checkpoints at the indexes of a list, run
    one after the other: the player crosses those checkpoints in that
    order, whatever the order is. *)
Fixpoint overlaps (props : GameCanvasProps) (indexes : list Z)
  (s : Session) : Session * list Event :=
  match indexes with
  | [] => (s, [])
  | index :: rest =>
      let '(s1, ev1) := checkpointOverlap props index s in
      let '(s2, ev2) := overlaps props rest s1 in
      (s2, ev1 ++ ev2)
  end.

(** How many of those callbacks find their index expected when they run. *)
Fixpoint hits (props : GameCanvasProps) (indexes : list Z) (s : Session)
  : nat :=
  match indexes with
  | [] => O
  | index :: rest =>
      let rest_hits :=
        hits props rest (fst (checkpointOverlap props index s)) in
      if index =? currentCheckpoint s then S rest_hits else rest_hits
  end.

(** The checkpoints counted so far: a full lap is worth as many as there
    are checkpoints. *)
Definition progress (s : Session) : Z :=
  lapCount s * checkpoints_length s + currentCheckpoint s.

(** ** The life of one scene *)

(** What happens to a scene between [create] and a restart, as the
    session of the scene's callbacks meets it: the engine calls [update]
    for a frame, the player overlaps a checkpoint, the pause button is
    pressed, the countdown timer fires.  A press of the pause button
    writes none of these variables; what it does is in [clickPause]. *)
Inductive Action : Type :=
| Tick (f : Frame)
| Overlap (index : Z)
| PauseButton
| CountdownElapsed.

Definition isCountdown (a : Action) : bool :=
  match a with CountdownElapsed => true | _ => false end.

Section Scene.

Variable WrapAngle : R -> R.
Variable AngleBetween : R -> R -> R -> R -> R.

Definition step (props : GameCanvasProps) (a : Action) (s : Session)
  : Session * list Event :=
  match a with
  | Tick f =>
      let o :=
        update WrapAngle AngleBetween props (frame_cursors f)
          (frame_connected f) (frame_delta f) s in
      (outcome_session o, outcome_events o)
  | Overlap index => checkpointOverlap props index s
  | PauseButton => (s, [])
  | CountdownElapsed => raceCountdown s
  end.

Fixpoint run (props : GameCanvasProps) (actions : list Action)
  (s : Session) : Session * list Event :=
  match actions with
  | [] => (s, [])
  | a :: rest =>
      let '(s1, ev1) := step props a s in
      let '(s2, ev2) := run props rest s1 in
      (s2, ev1 ++ ev2)
  end.

End Scene.

(** A session as the first [create] leaves it and as a scene keeps it:
    there is a player car, the expected index is the index of a
    checkpoint, the lap count is not negative, and no AI car is a
    destroyed one. *)
Definition wellFormed (s : Session) : Prop :=
  player s <> None /\
  0 <= currentCheckpoint s < checkpoints_length s /\
  0 <= lapCount s /\
  destroyedCars s = O.

(** ** The component: the engine's session and the buttons' *)

(** What the engine does to a scene that it shuts down, as it does for a
    restart: it destroys the scene's game objects.  The arrays of the
    session still hold them. *)
Definition sceneShutdown (s : Session) : Session :=
  set_destroyedCars (List.length (aiCars s)) s.

(** A render: the variables as they are declared, with the state of the
    moment. *)
Definition render (paused loaded : bool) : Session :=
  set_gameLoaded loaded (set_isPaused paused GameCanvas_variables).

(** The state after the calls of [setIsPaused] and [setGameLoaded] of a
    list of calls. *)
Fixpoint statePaused (calls : list Event) (paused : bool) : bool :=
  match calls with
  | [] => paused
  | SetIsPaused b :: rest => statePaused rest b
  | _ :: rest => statePaused rest paused
  end.

Fixpoint stateLoaded (calls : list Event) (loaded : bool) : bool :=
  match calls with
  | [] => loaded
  | SetGameLoaded b :: rest => stateLoaded rest b
  | _ :: rest => stateLoaded rest loaded
  end.

(** Whether the scene manager has the scene paused after the calls of a
    list: a restarted scene runs.  The scene manager calls [update] of a
    scene only while the scene is not paused. *)
Fixpoint sceneManager (calls : list Event) (paused : bool) : bool :=
  match calls with
  | [] => paused
  | ScenePause :: rest => sceneManager rest true
  | SceneResume :: rest => sceneManager rest false
  | SceneRestart :: rest => sceneManager rest false
  | _ :: rest => sceneManager rest paused
  end.

(** The mounted component: the session that the scene's callbacks close
    over, the session of the latest render, which the handlers of the
    buttons close over, and whether the scene is paused. *)
Record Component : Type := {
  engine : Session;
  latest : Session;
  scenePaused : bool
}.

(** The session of the latest render after a handler has left it as
    [s] and made [calls]: a new render when the state has changed. *)
Definition afterCalls (calls : list Event) (s : Session) : Session :=
  if Bool.eqb (statePaused calls (isPaused s)) (isPaused s)
     && Bool.eqb (stateLoaded calls (gameLoaded s)) (gameLoaded s)
  then s
  else render (statePaused calls (isPaused s))
         (stateLoaded calls (gameLoaded s)).

(** A click on the pause button. *)
Definition clickPause (c : Component) : Component * list Event :=
  let calls := handlePause true (latest c) in
  ({| engine := engine c;
      latest := afterCalls calls (latest c);
      scenePaused := sceneManager calls (scenePaused c) |},
   calls).

(** A click on the restart button: for the restart the engine shuts the
    scene down and runs the [create] it holds again. *)
Definition clickRestart (props : GameCanvasProps) (c : Component)
  : Component * list Event :=
  let '(s, calls) := handleRestart (latest c) in
  let o := create props (sceneShutdown (engine c)) in
  ({| engine := outcome_session o;
      latest := afterCalls (calls ++ outcome_events o) s;
      scenePaused := sceneManager calls (scenePaused c) |},
   calls ++ outcome_events o).

(** The component as it is mounted, after [create] and after the
    countdown. *)
Definition mountedComponent : Component :=
  {| engine := GameCanvas_variables; latest := GameCanvas_variables;
     scenePaused := false |}.

Definition createdComponent (props : GameCanvasProps) : Component :=
  {| engine := createdSession props;
     latest :=
       afterCalls (outcome_events (create props GameCanvas_variables))
         GameCanvas_variables;
     scenePaused := false |}.

Definition startedComponent (props : GameCanvasProps) : Component :=
  {| engine := startedSession props;
     latest := latest (createdComponent props);
     scenePaused := false |}.

Section ComponentFrames.

Variable WrapAngle : R -> R.
Variable AngleBetween : R -> R -> R -> R -> R.

(** A frame of the engine: a call of [update] on the engine's session,
    unless the scene is paused. *)
Definition engineFrame (props : GameCanvasProps) (f : Frame)
  (c : Component) : Component * list Event :=
  if scenePaused c then (c, [])
  else
    let o :=
      update WrapAngle AngleBetween props (frame_cursors f)
        (frame_connected f) (frame_delta f) (engine c) in
    ({| engine := outcome_session o; latest := latest c;
        scenePaused := scenePaused c |},
     outcome_events o).

Fixpoint engineFrames (props : GameCanvasProps) (frames : list Frame)
  (c : Component) : Component * list Event :=
  match frames with
  | [] => (c, [])
  | f :: rest =>
      let '(c1, ev1) := engineFrame props f c in
      let '(c2, ev2) := engineFrames props rest c1 in
      (c2, ev1 ++ ev2)
  end.


End ComponentFrames.

(** * Properties *)

(** ** Arithmetic of the wrap-around *)

Lemma rem_succ_mod (m n : Z) :
  0 <= m -> 0 < n -> Z.rem (m mod n + 1) n = (m + 1) mod n.
Proof.
  intros Hm Hn.
  assert (0 <= m mod n < n) by (apply Z.mod_pos_bound; lia).
  rewrite Z.rem_mod_nonneg by lia.
  apply Z.add_mod_idemp_l; lia.
Qed.

Lemma div_succ_wrap (m n : Z) :
  0 <= m -> 0 < n ->
  (m + 1) / n = if (m + 1) mod n =? 0 then m / n + 1 else m / n.
Proof.
  intros Hm Hn.
  destruct ((m + 1) mod n =? 0) eqn:E.
  - apply Z.eqb_eq in E. Z.div_mod_to_equations. nia.
  - apply Z.eqb_neq in E. Z.div_mod_to_equations. nia.
Qed.

Lemma mod_succ_zero_iff (m n : Z) :
  0 <= m -> 0 < n -> ((m + 1) mod n = 0 <-> m mod n = n - 1).
Proof.
  intros Hm Hn.
  assert (Hr : 0 <= m mod n < n) by (apply Z.mod_pos_bound; lia).
  rewrite <- (Z.add_mod_idemp_l m 1 n) by lia.
  destruct (Z.eq_dec (m mod n) (n - 1)) as [E | E].
  - rewrite E. replace (n - 1 + 1) with n by lia.
    rewrite Z.mod_same by lia. tauto.
  - rewrite Z.mod_small by lia. lia.
Qed.

(** ** One entry of the expected checkpoint *)

Lemma enterExpected_step (props : GameCanvasProps) (s : Session) :
  let c' := Z.rem (currentCheckpoint s + 1) (checkpoints_length s) in
  let s' := fst (enterExpected props s) in
  checkpoints s' = checkpoints s /\
  maxLaps s' = maxLaps s /\
  raceTime s' = raceTime s /\
  currentCheckpoint s' = c' /\
  lapCount s' = (if c' =? 0 then lapCount s + 1 else lapCount s) /\
  raceStarted s' =
    (if (c' =? 0) && (lapCount s + 1 >=? maxLaps s) then false
     else raceStarted s) /\
  snd (enterExpected props s) =
    (if c' =? 0 then
       ToastLapCompleted (lapCount s + 1) (raceTime s / 1000)%R
       :: (if lapCount s + 1 >=? maxLaps s
           then finishRace_calls props (raceTime s / 1000)%R (lapCount s + 1)
           else [])
     else []).
Proof.
  unfold enterExpected, checkpointOverlap.
  rewrite Z.eqb_refl. cbn.
  destruct (Z.rem (currentCheckpoint s + 1) (checkpoints_length s) =? 0);
    cbn; [ destruct (lapCount s + 1 >=? maxLaps s); cbn | ];
    repeat split; reflexivity.
Qed.

Lemma checkpoints_length_step (props : GameCanvasProps) (s : Session) :
  checkpoints_length (fst (enterExpected props s)) = checkpoints_length s.
Proof.
  unfold checkpoints_length.
  destruct (enterExpected_step props s) as (H & _). now rewrite H.
Qed.

(** ** Runs of in-order entries *)

Lemma inOrder_counters (props : GameCanvasProps) (s : Session) (k : nat) :
  1 <= checkpoints_length s ->
  0 <= currentCheckpoint s < checkpoints_length s ->
  let s' := inOrder props k s in
  checkpoints s' = checkpoints s /\
  maxLaps s' = maxLaps s /\
  raceTime s' = raceTime s /\
  currentCheckpoint s' =
    (currentCheckpoint s + Z.of_nat k) mod checkpoints_length s /\
  lapCount s' =
    lapCount s + (currentCheckpoint s + Z.of_nat k) / checkpoints_length s.
Proof.
  intros HN Hc. induction k as [| k IH]; cbn zeta.
  - cbn [inOrder]. rewrite Z.add_0_r, Z.mod_small, Z.div_small by lia.
    repeat split; lia.
  - cbn [inOrder].
    destruct IH as (Hcp & Hml & Ht & Hcc & Hlap).
    destruct (enterExpected_step props (inOrder props k s))
      as (Hcp' & Hml' & Ht' & Hcc' & Hlap' & _).
    assert (HL : checkpoints_length (inOrder props k s) = checkpoints_length s)
      by (unfold checkpoints_length; now rewrite Hcp).
    rewrite HL, Hcc in Hcc', Hlap'.
    rewrite rem_succ_mod in Hcc', Hlap' by lia.
    replace (currentCheckpoint s + Z.of_nat (S k))
      with (currentCheckpoint s + Z.of_nat k + 1) by lia.
    rewrite Hcp', Hml', Ht', Hcc', Hlap', Hlap.
    rewrite (div_succ_wrap (currentCheckpoint s + Z.of_nat k)) by lia.
    repeat split; try assumption.
    destruct ((currentCheckpoint s + Z.of_nat k + 1) mod checkpoints_length s
              =? 0); lia.
Qed.

Lemma inOrder_raceStarted (props : GameCanvasProps) (s : Session) (k : nat) :
  1 <= maxLaps s ->
  1 <= checkpoints_length s ->
  freshRacing s ->
  raceStarted (inOrder props k s)
  = (Z.of_nat k <? maxLaps s * checkpoints_length s).
Proof.
  intros HL HN (Hrs & Hc0 & Hl0).
  induction k as [| k IH].
  - cbn [inOrder]. rewrite Hrs. symmetry. apply Z.ltb_lt. cbn. nia.
  - cbn [inOrder].
    destruct (inOrder_counters props s k HN ltac:(lia))
      as (Hcp & Hml & _ & Hcc & Hlap).
    destruct (enterExpected_step props (inOrder props k s))
      as (_ & _ & _ & _ & _ & Hrs' & _).
    assert (HLen : checkpoints_length (inOrder props k s)
                   = checkpoints_length s)
      by (unfold checkpoints_length; now rewrite Hcp).
    rewrite Hrs', HLen, Hcc, Hlap, Hml, IH, Hc0, Hl0.
    rewrite !Z.add_0_l.
    rewrite rem_succ_mod by lia.
    pose proof (div_succ_wrap (Z.of_nat k) (checkpoints_length s)
                  ltac:(lia) ltac:(lia)) as Hd.
    replace (Z.of_nat (S k)) with (Z.of_nat k + 1) by lia.
    set (N := checkpoints_length s) in *. set (L := maxLaps s) in *.
    set (m := Z.of_nat k) in *.
    assert (Hm : 0 <= m) by (subst m; lia).
    pose proof (Z.div_mod (m + 1) N ltac:(lia)) as Hdm.
    pose proof (Z.mod_pos_bound (m + 1) N ltac:(lia)) as Hb.
    destruct ((m + 1) mod N =? 0) eqn:E; cbn [andb].
    + apply Z.eqb_eq in E. rewrite E, Z.add_0_r in Hdm.
      destruct (m / N + 1 >=? L) eqn:G.
      * symmetry. apply Z.ltb_ge. rewrite Z.geb_le in G. nia.
      * rewrite Z.geb_leb in G. apply Z.leb_gt in G.
        assert (m + 1 < L * N) by nia.
        transitivity true; [apply Z.ltb_lt | symmetry; apply Z.ltb_lt]; lia.
    + apply Z.eqb_neq in E.
      destruct (m <? L * N) eqn:G.
      * apply Z.ltb_lt in G. symmetry. apply Z.ltb_lt.
        assert (m + 1 <> L * N)
          by (intro Heq; apply E; rewrite Heq; apply Z.mod_mul; lia).
        lia.
      * apply Z.ltb_ge in G. symmetry. apply Z.ltb_ge. lia.
Qed.

Lemma inOrderEvents_run (props : GameCanvasProps) (s : Session) (k : nat) :
  1 <= checkpoints_length s ->
  freshRacing s ->
  inOrderEvents props (S k) s =
    (if Z.of_nat (S k) mod checkpoints_length s =? 0 then
       ToastLapCompleted (Z.of_nat (S k) / checkpoints_length s)
         (raceTime s / 1000)%R
       :: (if Z.of_nat (S k) / checkpoints_length s >=? maxLaps s
           then finishRace_calls props (raceTime s / 1000)%R
                  (Z.of_nat (S k) / checkpoints_length s)
           else [])
     else []).
Proof.
  intros HN (Hrs & Hc0 & Hl0).
  cbn [inOrderEvents].
  destruct (inOrder_counters props s k HN ltac:(lia))
    as (Hcp & Hml & Ht & Hcc & Hlap).
  destruct (enterExpected_step props (inOrder props k s))
    as (_ & _ & _ & _ & _ & _ & Hev).
  assert (HLen : checkpoints_length (inOrder props k s)
                 = checkpoints_length s)
    by (unfold checkpoints_length; now rewrite Hcp).
  rewrite Hev, HLen, Hcc, Hlap, Hml, Ht, Hc0, Hl0.
  rewrite !Z.add_0_l.
  rewrite rem_succ_mod by lia.
  replace (Z.of_nat (S k)) with (Z.of_nat k + 1) by lia.
  rewrite (div_succ_wrap (Z.of_nat k)) by lia.
  destruct ((Z.of_nat k + 1) mod checkpoints_length s =? 0); reflexivity.
Qed.

(** ** Laps and the finish *)

(** C1.  From a session in which the race has just started, with lap
    target [L >= 1] and [N >= 1] checkpoints, entering the expected
    checkpoint again and again: [raceStarted] holds after [k] entries
    exactly when [k < L * N], so the race goes from racing to finished at
    one entry only, the [(L * N)]-th; every entry before that one emits at
    most a lap toast for a lap below [L]; and the [(L * N)]-th entry leaves
    [lapCount = L] and emits the lap toast, the finish toast and the
    race result with [laps = L]. *)
Theorem race_finishes_once_on_entry_L_times_N
  (props : GameCanvasProps) (s : Session) (L : Z) :
  1 <= L ->
  1 <= checkpoints_length s ->
  maxLaps s = L ->
  freshRacing s ->
  let N := checkpoints_length s in
  let finalTime := (raceTime s / 1000)%R in
  (forall k : nat,
      raceStarted (inOrder props k s) = (Z.of_nat k <? L * N)) /\
  (forall k : nat,
      (raceStarted (inOrder props k s) = true /\
       raceStarted (inOrder props (S k) s) = false)
      <-> Z.of_nat (S k) = L * N) /\
  (forall k : nat,
      Z.of_nat k < L * N ->
      forall e : Event,
        In e (inOrderEvents props k s) ->
        exists lap : Z, lap < L /\ e = ToastLapCompleted lap finalTime) /\
  (forall k : nat,
      Z.of_nat k = L * N ->
      lapCount (inOrder props k s) = L /\
      inOrderEvents props k s =
        ToastLapCompleted L finalTime
        :: ToastRaceFinished finalTime
        :: (if onGameEnd props
            then [OnGameEnd {| time := finalTime; laps := L;
                               position := 1 |}]
            else [])
        ++ (match gameMode props with
            | multiplayer => [SocketFinishRace "current-race" finalTime]
            | single => []
            end)).
Proof.
  intros HL HN Hmax Hfresh N finalTime. subst L.
  assert (Hflag : forall k : nat,
             raceStarted (inOrder props k s)
             = (Z.of_nat k <? maxLaps s * N))
    by (intro k; now apply inOrder_raceStarted).
  split; [exact Hflag |]. split; [| split].
  - intro k. rewrite !Hflag. rewrite Z.ltb_lt, Z.ltb_ge. lia.
  - intros [| k] Hk e Hin; [destruct Hin |].
    rewrite inOrderEvents_run in Hin by assumption.
    fold N in Hin.
    destruct (Z.of_nat (S k) mod N =? 0) eqn:E; [| destruct Hin].
    apply Z.eqb_eq in E.
    pose proof (Z.div_mod (Z.of_nat (S k)) N ltac:(lia)) as Hdm.
    rewrite E, Z.add_0_r in Hdm.
    assert (Hq : Z.of_nat (S k) / N < maxLaps s) by nia.
    destruct (Z.of_nat (S k) / N >=? maxLaps s) eqn:G;
      [rewrite Z.geb_le in G; lia |].
    destruct Hin as [<- | []].
    exists (Z.of_nat (S k) / N). split; [exact Hq | reflexivity].
  - intros k Hk.
    destruct Hfresh as (Hrs & Hc0 & Hl0).
    destruct (inOrder_counters props s k HN ltac:(lia))
      as (_ & _ & _ & _ & Hlap).
    fold N in Hlap.
    assert (Hdiv : Z.of_nat k / N = maxLaps s)
      by (rewrite Hk; apply Z.div_mul; lia).
    split.
    + rewrite Hlap, Hl0, Hc0, !Z.add_0_l. exact Hdiv.
    + destruct k as [| k]; [exfalso; cbn in Hk; nia |].
      rewrite inOrderEvents_run by (try assumption; repeat split; assumption).
      fold N. rewrite Hdiv.
      replace (Z.of_nat (S k) mod N) with 0
        by (rewrite Hk; symmetry; apply Z.mod_mul; lia).
      rewrite Z.eqb_refl.
      replace (maxLaps s >=? maxLaps s) with true
        by (symmetry; rewrite Z.geb_le; lia).
      reflexivity.
Qed.

Lemma race_finishes_once_witness :
  1 <= 3 /\
  1 <= checkpoints_length (startedSession singleProps) /\
  maxLaps (startedSession singleProps) = 3 /\
  freshRacing (startedSession singleProps) /\
  raceStarted (inOrder singleProps 14 (startedSession singleProps)) = true /\
  raceStarted (inOrder singleProps 15 (startedSession singleProps)) = false.
Proof.
  assert (H1 : 1 <= 3) by lia.
  assert (H2 : 1 <= checkpoints_length (startedSession singleProps))
    by (cbn; lia).
  assert (H3 : maxLaps (startedSession singleProps) = 3) by reflexivity.
  assert (H4 : freshRacing (startedSession singleProps))
    by (repeat split; reflexivity).
  destruct (race_finishes_once_on_entry_L_times_N
              singleProps (startedSession singleProps) 3 H1 H2 H3 H4)
    as (Hflag & _).
  repeat split; try assumption; rewrite Hflag; reflexivity.
Defined.

(** C2.  With [N] checkpoints and the expected index [c] in [[0, N)]:
    one entry of the expected checkpoint moves the index to
    [(c + 1) mod N], which is again in [[0, N)], and adds one to the lap
    count exactly when [c = N - 1], the entry that wraps the index to 0;
    after [k] such entries the index is [(c + k) mod N] and the lap count
    has grown by [(c + k) / N], so that from index 0 the indexes visited
    are 0, 1, ..., N-1, 0, 1, ... with one more lap for each full cycle;
    and a restart puts the index back to 0 and leaves the checkpoints. *)
Theorem expected_index_cycles_and_laps_count_wraps
  (props : GameCanvasProps) (s : Session) :
  0 <= currentCheckpoint s < checkpoints_length s ->
  let N := checkpoints_length s in
  (currentCheckpoint (fst (enterExpected props s))
   = (currentCheckpoint s + 1) mod N /\
   0 <= currentCheckpoint (fst (enterExpected props s)) < N /\
   lapCount (fst (enterExpected props s))
   = (if currentCheckpoint s =? N - 1 then lapCount s + 1 else lapCount s) /\
   (currentCheckpoint (fst (enterExpected props s)) = 0
    <-> currentCheckpoint s = N - 1)) /\
  (forall k : nat,
      currentCheckpoint (inOrder props k s)
      = (currentCheckpoint s + Z.of_nat k) mod N /\
      0 <= currentCheckpoint (inOrder props k s) < N /\
      lapCount (inOrder props k s)
      = lapCount s + (currentCheckpoint s + Z.of_nat k) / N) /\
  (currentCheckpoint s = 0 ->
   forall k : nat,
     currentCheckpoint (inOrder props k s) = Z.of_nat k mod N /\
     lapCount (inOrder props k s) = lapCount s + Z.of_nat k / N) /\
  (currentCheckpoint (fst (handleRestart s)) = 0 /\
   lapCount (fst (handleRestart s)) = 0 /\
   checkpoints (fst (handleRestart s)) = checkpoints s).
Proof.
  intros Hc N.
  assert (HN : 1 <= checkpoints_length s) by lia.
  assert (Hrun : forall k : nat,
             currentCheckpoint (inOrder props k s)
             = (currentCheckpoint s + Z.of_nat k) mod N /\
             0 <= currentCheckpoint (inOrder props k s) < N /\
             lapCount (inOrder props k s)
             = lapCount s + (currentCheckpoint s + Z.of_nat k) / N).
  { intro k.
    destruct (inOrder_counters props s k HN Hc) as (_ & _ & _ & Hcc & Hlap).
    fold N in Hcc, Hlap. rewrite Hcc. repeat split; try assumption;
      apply Z.mod_pos_bound; lia. }
  split; [| split; [exact Hrun | split]].
  - destruct (enterExpected_step props s) as (_ & _ & _ & Hcc & Hlap & _).
    fold N in Hcc, Hlap.
    assert (Hrem : Z.rem (currentCheckpoint s + 1) N
                   = (currentCheckpoint s + 1) mod N)
      by (apply Z.rem_mod_nonneg; lia).
    rewrite Hrem in Hcc, Hlap.
    pose proof (mod_succ_zero_iff (currentCheckpoint s) N
                  ltac:(lia) ltac:(lia)) as Hz.
    rewrite (Z.mod_small (currentCheckpoint s)) in Hz by lia.
    rewrite Hcc, Hlap.
    repeat split; try (apply Z.mod_pos_bound; lia); try apply Hz.
    destruct (currentCheckpoint s =? N - 1) eqn:E.
    + apply Z.eqb_eq in E. apply Hz in E. rewrite E. reflexivity.
    + apply Z.eqb_neq in E.
      destruct ((currentCheckpoint s + 1) mod N =? 0) eqn:E';
        [apply Z.eqb_eq in E'; apply Hz in E'; contradiction | reflexivity].
  - intros H0 k. destruct (Hrun k) as (Hcc & _ & Hlap).
    rewrite Hcc, Hlap, H0, Z.add_0_l. split; reflexivity.
  - repeat split; reflexivity.
Qed.

Lemma expected_index_cycles_witness :
  0 <= currentCheckpoint (startedSession singleProps)
    < checkpoints_length (startedSession singleProps) /\
  currentCheckpoint (inOrder singleProps 7 (startedSession singleProps)) = 2 /\
  lapCount (inOrder singleProps 7 (startedSession singleProps)) = 1.
Proof.
  assert (H : 0 <= currentCheckpoint (startedSession singleProps)
              < checkpoints_length (startedSession singleProps))
    by (cbn; lia).
  destruct (expected_index_cycles_and_laps_count_wraps
              singleProps (startedSession singleProps) H)
    as (_ & Hrun & _).
  destruct (Hrun 7%nat) as (Hcc & _ & Hlap).
  split; [exact H |]. split; [rewrite Hcc | rewrite Hlap]; reflexivity.
Defined.

(** ** Entries out of order and repeated overlap *)

Lemma checkpointOverlap_unexpected
  (props : GameCanvasProps) (s : Session) (index : Z) :
  (index =? currentCheckpoint s) = false ->
  checkpointOverlap props index s = (s, []).
Proof. intro E. unfold checkpointOverlap. now rewrite E. Qed.

(** C4.  The overlap callback of a checkpoint whose index is not the
    expected one changes nothing and emits nothing: the expected index,
    the lap count, [raceStarted] and every other variable stay as they
    are. *)
Theorem out_of_order_entry_is_no_op
  (props : GameCanvasProps) (s : Session) (index : Z) :
  index <> currentCheckpoint s ->
  checkpointOverlap props index s = (s, []).
Proof.
  intro Hne. unfold checkpointOverlap.
  destruct (Z.eqb_spec index (currentCheckpoint s)); [contradiction |].
  reflexivity.
Qed.

Lemma out_of_order_entry_witness :
  2 <> currentCheckpoint (startedSession singleProps) /\
  checkpointOverlap singleProps 2 (startedSession singleProps)
  = (startedSession singleProps, []).
Proof.
  assert (H : 2 <> currentCheckpoint (startedSession singleProps))
    by (cbn; lia).
  split; [exact H |].
  exact (out_of_order_entry_is_no_op singleProps
           (startedSession singleProps) 2 H).
Defined.

Lemma occupy_other_checkpoint
  (props : GameCanvasProps) (index : Z) (n : nat) (s : Session) :
  index <> currentCheckpoint s -> occupy props index n s = (s, []).
Proof.
  intro Hne. induction n as [| n IH]; [reflexivity |].
  cbn [occupy].
  rewrite checkpointOverlap_unexpected by (now apply Z.eqb_neq).
  rewrite IH. reflexivity.
Qed.

Lemma checkpointOverlap_leaves_index
  (props : GameCanvasProps) (s : Session) (index : Z) :
  2 <= checkpoints_length s ->
  0 <= index < checkpoints_length s ->
  index <> currentCheckpoint (fst (checkpointOverlap props index s)).
Proof.
  intros HN Hi.
  destruct (Z.eqb_spec index (currentCheckpoint s)) as [E | E].
  - subst index. fold (enterExpected props s).
    destruct (enterExpected_step props s) as (_ & _ & _ & Hcc & _).
    rewrite Hcc. rewrite Z.rem_mod_nonneg by lia.
    destruct (Z.eq_dec (currentCheckpoint s + 1) (checkpoints_length s))
      as [Hw | Hw].
    + rewrite Hw, Z.mod_same by lia. lia.
    + rewrite Z.mod_small by lia. lia.
  - rewrite checkpointOverlap_unexpected by (now apply Z.eqb_neq).
    exact E.
Qed.

(** C3.  With at least two checkpoints, as on the track that [create]
    builds, a stay of any number of steps on one checkpoint has the effect
    of its first step alone: the overlap callback run [n + 1] times in a
    row leaves the session, and so the expected index and the lap count,
    as one run leaves it, and emits the events of one run.  The first run
    moves the expected index away from the occupied checkpoint, so the
    index test turns every later run into a no-op. *)
Theorem repeated_overlap_advances_once
  (props : GameCanvasProps) (s : Session) (index : Z) (n : nat) :
  2 <= checkpoints_length s ->
  0 <= index < checkpoints_length s ->
  occupy props index (S n) s = checkpointOverlap props index s.
Proof.
  intros HN Hi.
  pose proof (checkpointOverlap_leaves_index props s index HN Hi) as Hne.
  cbn [occupy].
  destruct (checkpointOverlap props index s) as [s1 ev1].
  cbn [fst] in Hne.
  rewrite occupy_other_checkpoint by exact Hne.
  now rewrite app_nil_r.
Qed.

Lemma repeated_overlap_witness :
  2 <= checkpoints_length (startedSession singleProps) /\
  0 <= 0 < checkpoints_length (startedSession singleProps) /\
  occupy singleProps 0 60 (startedSession singleProps)
  = checkpointOverlap singleProps 0 (startedSession singleProps).
Proof.
  assert (H1 : 2 <= checkpoints_length (startedSession singleProps))
    by (cbn; lia).
  assert (H2 : 0 <= 0 < checkpoints_length (startedSession singleProps))
    by (cbn; lia).
  split; [exact H1 |]. split; [exact H2 |].
  exact (repeated_overlap_advances_once singleProps
           (startedSession singleProps) 0 59 H1 H2).
Defined.

(** On a track of a single checkpoint the index wraps to itself, and every
    step of a stay counts a lap. *)
Lemma single_checkpoint_counts_every_step
  (props : GameCanvasProps) (s : Session) :
  checkpoints_length s = 1 ->
  currentCheckpoint s = 0 ->
  currentCheckpoint (fst (checkpointOverlap props 0 s)) = 0 /\
  lapCount (fst (checkpointOverlap props 0 s)) = lapCount s + 1.
Proof.
  intros HN Hc.
  pose proof (enterExpected_step props s) as H.
  unfold enterExpected in H. rewrite Hc, HN in H. cbn in H.
  destruct H as (_ & _ & _ & Hcc & Hlap & _).
  split; assumption.
Qed.

(** ** The overlap callback and [raceStarted] *)

(** C9.  The overlap callback never reads [raceStarted]: run on two
    sessions that differ in that flag only, it gives the same expected
    index, the same lap count and the same events.  So with the flag off,
    before the countdown has elapsed or after the finish, an entry of the
    expected checkpoint still advances the index, counts the lap at the
    wrap and calls [finishRace] when the lap count has reached the target;
    and in a race with lap target [L] and [N] checkpoints that is carried
    on in order after its finish, the entry number [(L + 1) * N] finds
    [raceStarted] off, counts lap [L + 1] and makes the calls of
    [finishRace] once more. *)
Theorem overlap_callback_ignores_raceStarted
  (props : GameCanvasProps) (s : Session) :
  1 <= maxLaps s ->
  1 <= checkpoints_length s ->
  freshRacing s ->
  (forall (s' : Session) (index : Z) (b : bool),
      currentCheckpoint
        (fst (checkpointOverlap props index (set_raceStarted b s')))
      = currentCheckpoint (fst (checkpointOverlap props index s')) /\
      lapCount (fst (checkpointOverlap props index (set_raceStarted b s')))
      = lapCount (fst (checkpointOverlap props index s')) /\
      snd (checkpointOverlap props index (set_raceStarted b s'))
      = snd (checkpointOverlap props index s')) /\
  (forall s' : Session,
      raceStarted s' = false ->
      1 <= checkpoints_length s' ->
      let c' := Z.rem (currentCheckpoint s' + 1) (checkpoints_length s') in
      currentCheckpoint (fst (enterExpected props s')) = c' /\
      lapCount (fst (enterExpected props s'))
      = (if c' =? 0 then lapCount s' + 1 else lapCount s') /\
      snd (enterExpected props s')
      = (if c' =? 0 then
           ToastLapCompleted (lapCount s' + 1) (raceTime s' / 1000)%R
           :: (if lapCount s' + 1 >=? maxLaps s'
               then finishRace_calls props (raceTime s' / 1000)%R
                      (lapCount s' + 1)
               else [])
         else [])) /\
  (forall k : nat,
      Z.of_nat (S k) = (maxLaps s + 1) * checkpoints_length s ->
      raceStarted (inOrder props k s) = false /\
      lapCount (inOrder props (S k) s) = maxLaps s + 1 /\
      inOrderEvents props (S k) s
      = ToastLapCompleted (maxLaps s + 1) (raceTime s / 1000)%R
        :: finishRace_calls props (raceTime s / 1000)%R (maxLaps s + 1)).
Proof.
  intros HL HN Hfresh. split; [| split].
  - intros s' index b. unfold checkpointOverlap.
    change (checkpoints_length (set_raceStarted b s'))
      with (checkpoints_length s').
    change (currentCheckpoint (set_raceStarted b s'))
      with (currentCheckpoint s').
    destruct (index =? currentCheckpoint s'); [| now repeat split].
    cbn.
    destruct (Z.rem (currentCheckpoint s' + 1) (checkpoints_length s') =? 0);
      [| now repeat split].
    destruct (lapCount s' + 1 >=? maxLaps s'); now repeat split.
  - intros s' _ _ c'.
    destruct (enterExpected_step props s') as (_ & _ & _ & Hcc & Hlap & _ & Hev).
    repeat split; assumption.
  - intros k Hk.
    set (N := checkpoints_length s) in *. set (L := maxLaps s) in *.
    assert (Hdiv : Z.of_nat (S k) / N = L + 1)
      by (rewrite Hk; apply Z.div_mul; lia).
    assert (Hmod : Z.of_nat (S k) mod N = 0)
      by (rewrite Hk; apply Z.mod_mul; lia).
    split; [| split].
    + rewrite inOrder_raceStarted by assumption.
      apply Z.ltb_ge. fold L N. nia.
    + destruct Hfresh as (_ & Hc0 & Hl0).
      destruct (inOrder_counters props s (S k) HN ltac:(fold N; lia))
        as (_ & _ & _ & _ & Hlap).
      rewrite Hlap, Hl0, Hc0, !Z.add_0_l. exact Hdiv.
    + rewrite inOrderEvents_run by assumption.
      fold N L. rewrite Hmod, Hdiv, Z.eqb_refl.
      replace (L + 1 >=? L) with true by (symmetry; rewrite Z.geb_le; lia).
      reflexivity.
Qed.

Lemma overlap_callback_ignores_raceStarted_witness :
  1 <= maxLaps (startedSession singleProps) /\
  1 <= checkpoints_length (startedSession singleProps) /\
  freshRacing (startedSession singleProps) /\
  raceStarted (inOrder singleProps 19 (startedSession singleProps)) = false /\
  lapCount (inOrder singleProps 20 (startedSession singleProps)) = 4.
Proof.
  assert (H1 : 1 <= maxLaps (startedSession singleProps)) by (cbn; lia).
  assert (H2 : 1 <= checkpoints_length (startedSession singleProps))
    by (cbn; lia).
  assert (H3 : freshRacing (startedSession singleProps))
    by (repeat split; reflexivity).
  destruct (overlap_callback_ignores_raceStarted
              singleProps (startedSession singleProps) H1 H2 H3)
    as (_ & _ & Hlate).
  destruct (Hlate 19%nat ltac:(reflexivity)) as (Hflag & Hlap & _).
  repeat split; try assumption; cbn; lia.
Defined.

(** ** Pause and resume *)

Lemma update_paused (WrapAngle : R -> R) (AngleBetween : R -> R -> R -> R -> R)
  (props : GameCanvasProps) (cursors : CursorKeys) (connected : bool)
  (delta : R) (s : Session) :
  isPaused s = true ->
  update WrapAngle AngleBetween props cursors connected delta s
  = Returned s [].
Proof.
  intro Hp. unfold update. rewrite Hp, orb_true_r. reflexivity.
Qed.

Lemma ticks_paused (WrapAngle : R -> R) (AngleBetween : R -> R -> R -> R -> R)
  (props : GameCanvasProps) (frames : list Frame) (s : Session) :
  isPaused s = true ->
  ticks WrapAngle AngleBetween props frames s = (s, []).
Proof.
  intro Hp. induction frames as [| f rest IH]; [reflexivity |].
  cbn [ticks]. rewrite update_paused by exact Hp.
  cbn [outcome_session outcome_events]. rewrite IH. reflexivity.
Qed.

Lemma engineFrames_paused
  (WrapAngle : R -> R) (AngleBetween : R -> R -> R -> R -> R)
  (props : GameCanvasProps) (frames : list Frame) (c : Component) :
  scenePaused c = true ->
  engineFrames WrapAngle AngleBetween props frames c = (c, []).
Proof.
  intro Hp. induction frames as [| f rest IH]; [reflexivity |].
  cbn [engineFrames]. unfold engineFrame. rewrite Hp, IH. reflexivity.
Qed.

(** C7.  A click on the pause button while the state is not paused asks
    for the paused state and pauses the scene; it cannot reach the
    [isPaused] that the [update] in the engine's hands reads, and leaves
    the engine's session as it is.  While the scene is paused the engine
    calls no [update]: any number of frames leaves the engine's session,
    and so the expected index, the lap count, [raceTime] and
    [raceStarted], as they were at the click, and emits nothing.  The next
    click resumes the scene with that same session, and the tick after it
    is the tick that the session would have had without the pause. *)
Theorem paused_ticks_freeze_the_session
  (WrapAngle : R -> R) (AngleBetween : R -> R -> R -> R -> R)
  (props : GameCanvasProps) (frames : list Frame) (c : Component) :
  isPaused (latest c) = false ->
  scenePaused c = false ->
  let paused := fst (clickPause c) in
  let after := fst (engineFrames WrapAngle AngleBetween props frames paused) in
  let resumed := fst (clickPause after) in
  (snd (clickPause c) = [SetIsPaused true; ScenePause] /\
   scenePaused paused = true /\
   isPaused (latest paused) = true /\
   engine paused = engine c) /\
  engineFrames WrapAngle AngleBetween props frames paused = (paused, []) /\
  (currentCheckpoint (engine after) = currentCheckpoint (engine c) /\
   lapCount (engine after) = lapCount (engine c) /\
   raceTime (engine after) = raceTime (engine c) /\
   raceStarted (engine after) = raceStarted (engine c)) /\
  (snd (clickPause after) = [SetIsPaused false; SceneResume] /\
   scenePaused resumed = false /\
   isPaused (latest resumed) = false /\
   engine resumed = engine c) /\
  (forall f : Frame,
      engineFrame WrapAngle AngleBetween props f resumed
      = ({| engine :=
              outcome_session
                (update WrapAngle AngleBetween props (frame_cursors f)
                   (frame_connected f) (frame_delta f) (engine c));
            latest := latest resumed;
            scenePaused := false |},
         outcome_events
           (update WrapAngle AngleBetween props (frame_cursors f)
              (frame_connected f) (frame_delta f) (engine c)))).
Proof.
  intros Hstate Hscene paused after resumed.
  assert (Hpaused : snd (clickPause c) = [SetIsPaused true; ScenePause] /\
                    scenePaused paused = true /\
                    isPaused (latest paused) = true /\
                    engine paused = engine c).
  { subst paused. unfold clickPause, handlePause, afterCalls.
    rewrite Hstate. cbn. now repeat split. }
  destruct Hpaused as (Hcalls & Hsp & Hlp & He).
  assert (Hfrozen : engineFrames WrapAngle AngleBetween props frames paused
                    = (paused, []))
    by (now apply engineFrames_paused).
  assert (Hafter : after = paused) by (subst after; now rewrite Hfrozen).
  assert (Hresumed : snd (clickPause after) = [SetIsPaused false; SceneResume]
                     /\ scenePaused resumed = false /\
                     isPaused (latest resumed) = false /\
                     engine resumed = engine c).
  { subst resumed. rewrite Hafter.
    unfold clickPause, handlePause, afterCalls.
    rewrite Hlp. cbn. now repeat split. }
  split; [now repeat split |].
  split; [exact Hfrozen |].
  split; [rewrite Hafter, He; now repeat split |].
  split; [exact Hresumed |].
  destruct Hresumed as (_ & Hsr & _ & Her).
  intro f. unfold engineFrame. rewrite Hsr, Her. reflexivity.
Qed.

Lemma paused_ticks_witness :
  isPaused (latest (startedComponent singleProps)) = false /\
  scenePaused (startedComponent singleProps) = false /\
  engineFrames principalAngle angleBetween singleProps
    [frame upKey 16; frame leftKey 16; frame noKeys 17]
    (fst (clickPause (startedComponent singleProps)))
  = (fst (clickPause (startedComponent singleProps)), []).
Proof.
  assert (H1 : isPaused (latest (startedComponent singleProps)) = false)
    by reflexivity.
  assert (H2 : scenePaused (startedComponent singleProps) = false)
    by reflexivity.
  split; [exact H1 |]. split; [exact H2 |].
  exact (proj1 (proj2
           (paused_ticks_freeze_the_session principalAngle angleBetween
              singleProps
              [frame upKey 16; frame leftKey 16; frame noKeys 17]
              (startedComponent singleProps) H1 H2))).
Defined.

(** ** Creating the session *)

(** [create] checks nothing and rejects nothing: for every value of the
    variables it returns, having asked for the loaded state and started
    the countdown, and leaves the lap target and the expected index as it
    found them.  On the variables as the component declares them the
    created session has lap target 3, expected index 0 and five
    checkpoints. *)
Lemma create_never_rejects
  (props : GameCanvasProps) (s : Session) :
  (exists s' : Session,
      create props s = Returned s' [SetGameLoaded true; SetTimeout 3000] /\
      maxLaps s' = maxLaps s /\
      currentCheckpoint s' = currentCheckpoint s /\
      checkpoints_length s' = checkpoints_length s + 5) /\
  maxLaps (createdSession props) = 3 /\
  currentCheckpoint (createdSession props) = 0 /\
  checkpoints_length (createdSession props) = 5.
Proof.
  split.
  - eexists. split; [reflexivity |].
    destruct props as [[|] cb]; cbn; repeat split;
      unfold checkpoints_length; cbn; rewrite length_app; cbn; lia.
  - destruct props as [[|] cb]; repeat split; reflexivity.
Qed.

(** ** The win rate *)

(** C10.  For all integers [wins] and [totalRaces], so for all that are
    not negative: [getWinRate] yields a string and the comparator a
    number, neither ever dividing by zero; [getWinRate] is ['0%'] when
    [totalRaces] is 0; and the rate that the comparator uses for a player
    with no races is 0. *)
Theorem win_rate_never_divides_by_zero
  (toFixed : R -> nat -> string) (wins totalRaces : Z) (best : R) :
  (exists text : string, getWinRate toFixed wins totalRaces = Some text) /\
  getWinRate toFixed wins 0 = Some "0%"%string /\
  (exists rate : R,
      winRate {| total_races := totalRaces; wins := wins;
                 best_time := best |} = Some rate) /\
  winRate {| total_races := 0; wins := wins; best_time := best |}
  = Some 0%R /\
  (forall a b : Player, exists diff : R, compareWinRate a b = Some diff).
Proof.
  assert (Hrate : forall a : Player, exists rate : R, winRate a = Some rate).
  { intro a. unfold winRate, divide.
    destruct (total_races a >? 0) eqn:G; [| now eexists].
    destruct (Z.eqb_spec (total_races a) 0) as [E | E]; [| now eexists].
    rewrite E in G. discriminate. }
  split; [| split; [reflexivity | split; [apply Hrate | split]]].
  - unfold getWinRate, divide.
    destruct (totalRaces =? 0); now eexists.
  - reflexivity.
  - intros a b. unfold compareWinRate.
    destruct (Hrate a) as (ra & ->). destruct (Hrate b) as (rb & ->).
    now eexists.
Qed.

(** ** Speeds of projected velocities *)

Local Open Scope R_scope.

Lemma speed_setVelocity (vx vy : R) (r : Rectangle) :
  speed (setVelocity vx vy r) = sqrt (vx * vx + vy * vy).
Proof. reflexivity. Qed.

Lemma polar_norm (a m : R) :
  0 <= m ->
  sqrt ((cos a * m) * (cos a * m) + (sin a * m) * (sin a * m)) = m.
Proof.
  intro Hm.
  replace ((cos a * m) * (cos a * m) + (sin a * m) * (sin a * m))
    with ((Rsqr (sin a) + Rsqr (cos a)) * (m * m))
    by (unfold Rsqr; ring).
  rewrite sin2_cos2, Rmult_1_l. now apply sqrt_square.
Qed.

Lemma polar_norm_opp (a m : R) :
  0 <= m ->
  sqrt ((cos a * - m) * (cos a * - m) + (sin a * - m) * (sin a * - m)) = m.
Proof.
  intro Hm.
  replace ((cos a * - m) * (cos a * - m) + (sin a * - m) * (sin a * - m))
    with ((cos a * m) * (cos a * m) + (sin a * m) * (sin a * m)) by ring.
  now apply polar_norm.
Qed.

Lemma INR_index_speed (index : nat) : 0 <= 200 + INR index * 20.
Proof. pose proof (pos_INR index). lra. Qed.

(** ** The player's controls *)

(** The claim of C5 fails on [update] in two places.  A tick of 16 ms and
    a tick of 32 ms with the left key held turn the car by the same
    amount, so that no turn rate makes the turn a rate times the time
    step; and with the up and the down key both held, the velocity after
    the tick is the brake's, not the thrust of 300 along the heading. *)
Lemma turn_ignores_delta_and_brake_overrides_thrust :
  ~ (exists turnRate : R,
        option_map rotation
          (player (outcome_session
             (update principalAngle angleBetween multiplayerProps leftKey
                false 16 (startedSession multiplayerProps))))
        = Some (0 - turnRate * 16) /\
        option_map rotation
          (player (outcome_session
             (update principalAngle angleBetween multiplayerProps leftKey
                false 32 (startedSession multiplayerProps))))
        = Some (0 - turnRate * 32)) /\
  option_map velocity_y
    (player (outcome_session
       (update principalAngle angleBetween multiplayerProps
          {| left_isDown := false; right_isDown := false;
             up_isDown := true; down_isDown := true |}
          false 16 (startedSession multiplayerProps))))
  = Some 150 /\
  sin (0 - PI / 2) * 300 = -300.
Proof.
  assert (Hsin : sin (0 - PI / 2) = -1).
  { replace (0 - PI / 2) with (- (PI / 2)) by lra.
    rewrite sin_neg, sin_PI2. reflexivity. }
  split; [| split].
  - intros (turnRate & H16 & H32).
    cbn in H16, H32. unfold principalAngle in H16, H32.
    injection H16 as H16. injection H32 as H32. lra.
  - cbn. rewrite Hsin. f_equal. lra.
  - rewrite Hsin. lra.
Qed.

Lemma update_racing_player
  (WrapAngle : R -> R) (AngleBetween : R -> R -> R -> R -> R)
  (props : GameCanvasProps) (cursors : CursorKeys) (connected : bool)
  (delta : R) (s : Session) (p : Rectangle) :
  raceStarted s = true ->
  isPaused s = false ->
  player s = Some p ->
  player (outcome_session
            (update WrapAngle AngleBetween props cursors connected delta s))
  = Some (playerControls WrapAngle cursors p) /\
  raceTime (outcome_session
              (update WrapAngle AngleBetween props cursors connected delta s))
  = raceTime s + delta.
Proof.
  intros Hrs Hp Hpl. unfold update. rewrite Hrs, Hp. cbn [negb orb].
  cbn [player set_raceTime]. rewrite Hpl.
  destruct (gameMode props); [| now split].
  destruct (aiCars_forEach _ _ _ _ _ _) as [cars thrown].
  destruct thrown; now split.
Qed.

(** C5, as amended.  On a tick of a started race that is not paused,
    whatever the time step: the left key turns the car by 0.1 radians one
    way and the right key by 0.1 the other way, each through the engine's
    rotation setter and left before right; then the down key sets the
    velocity to 150 along the reverse of the new heading, and otherwise
    the up key sets it to 300 along the new heading, and with neither key
    the tick leaves the velocity as it was.  If the car came into the tick
    no faster than its maximum velocity of 300, it leaves the tick no
    faster than that. *)
Theorem player_controls_turn_by_fixed_step_and_cap_speed
  (WrapAngle : R -> R) (AngleBetween : R -> R -> R -> R -> R)
  (props : GameCanvasProps) (cursors : CursorKeys) (connected : bool)
  (delta : R) (s : Session) (p : Rectangle) :
  raceStarted s = true ->
  isPaused s = false ->
  player s = Some p ->
  body_maxVelocity p = 300 ->
  speed p <= body_maxVelocity p ->
  let s' :=
    outcome_session
      (update WrapAngle AngleBetween props cursors connected delta s) in
  let r1 :=
    if left_isDown cursors then WrapAngle (rotation p - 1 / 10)
    else rotation p in
  let r2 :=
    if right_isDown cursors then WrapAngle (r1 + 1 / 10) else r1 in
  exists p' : Rectangle,
    player s' = Some p' /\
    rotation p' = r2 /\
    (velocity_x p', velocity_y p')
    = (if down_isDown cursors then
         (cos (heading p' + PI) * 150, sin (heading p' + PI) * 150)
       else if up_isDown cursors then
         (cos (heading p') * 300, sin (heading p') * 300)
       else (velocity_x p, velocity_y p)) /\
    speed p'
    = (if down_isDown cursors then 150
       else if up_isDown cursors then 300 else speed p) /\
    body_maxVelocity p' = 300 /\
    speed p' <= body_maxVelocity p'.
Proof.
  intros Hrs Hp Hpl Hmax Hspeed s' r1 r2.
  destruct (update_racing_player WrapAngle AngleBetween props cursors
              connected delta s p Hrs Hp Hpl) as (Hplayer & _).
  fold s' in Hplayer.
  exists (playerControls WrapAngle cursors p).
  split; [exact Hplayer |].
  assert (Hrot : rotation (playerControls WrapAngle cursors p) = r2).
  { subst r1 r2. unfold playerControls.
    destruct (left_isDown cursors), (right_isDown cursors),
      (up_isDown cursors), (down_isDown cursors); reflexivity. }
  assert (Hcap : body_maxVelocity (playerControls WrapAngle cursors p) = 300).
  { rewrite <- Hmax. unfold playerControls.
    destruct (left_isDown cursors), (right_isDown cursors),
      (up_isDown cursors), (down_isDown cursors); reflexivity. }
  assert (Hvel :
    (velocity_x (playerControls WrapAngle cursors p),
     velocity_y (playerControls WrapAngle cursors p))
    = (if down_isDown cursors then
         (cos (r2 - PI / 2) * -150, sin (r2 - PI / 2) * -150)
       else if up_isDown cursors then
         (cos (r2 - PI / 2) * 300, sin (r2 - PI / 2) * 300)
       else (velocity_x p, velocity_y p))).
  { subst r1 r2. unfold playerControls.
    destruct (left_isDown cursors), (right_isDown cursors),
      (up_isDown cursors), (down_isDown cursors); reflexivity. }
  assert (Hsp :
    speed (playerControls WrapAngle cursors p)
    = (if down_isDown cursors then 150
       else if up_isDown cursors then 300 else speed p)).
  { unfold playerControls.
    destruct (left_isDown cursors), (right_isDown cursors),
      (up_isDown cursors), (down_isDown cursors);
      cbv beta iota zeta; rewrite ?speed_setVelocity;
      first [ apply polar_norm_opp; lra
            | apply polar_norm; lra
            | reflexivity ]. }
  split; [exact Hrot |]. split; [| split; [exact Hsp | split; [exact Hcap |]]].
  - rewrite Hvel. unfold heading. rewrite Hrot.
    destruct (down_isDown cursors); [| reflexivity].
    rewrite neg_cos, neg_sin. f_equal; ring.
  - rewrite Hsp, Hcap.
    destruct (down_isDown cursors); [lra |].
    destruct (up_isDown cursors); lra.
Qed.

Lemma player_controls_witness :
  raceStarted (startedSession multiplayerProps) = true /\
  isPaused (startedSession multiplayerProps) = false /\
  player (startedSession multiplayerProps)
  = Some (setMaxVelocity 300 (setDrag 100 (add_rectangle 120 150))) /\
  body_maxVelocity (setMaxVelocity 300 (setDrag 100 (add_rectangle 120 150)))
  = 300 /\
  speed (setMaxVelocity 300 (setDrag 100 (add_rectangle 120 150)))
  <= body_maxVelocity
       (setMaxVelocity 300 (setDrag 100 (add_rectangle 120 150))) /\
  exists p' : Rectangle,
    player (outcome_session
              (update principalAngle angleBetween multiplayerProps upKey
                 true 16 (startedSession multiplayerProps)))
    = Some p' /\
    speed p' = 300.
Proof.
  assert (H1 : raceStarted (startedSession multiplayerProps) = true)
    by reflexivity.
  assert (H2 : isPaused (startedSession multiplayerProps) = false)
    by reflexivity.
  assert (H3 : player (startedSession multiplayerProps)
               = Some (setMaxVelocity 300
                         (setDrag 100 (add_rectangle 120 150))))
    by reflexivity.
  assert (H4 : body_maxVelocity
                 (setMaxVelocity 300 (setDrag 100 (add_rectangle 120 150)))
               = 300) by reflexivity.
  assert (H5 : speed (setMaxVelocity 300
                        (setDrag 100 (add_rectangle 120 150)))
               <= body_maxVelocity
                    (setMaxVelocity 300
                       (setDrag 100 (add_rectangle 120 150)))).
  { unfold speed. cbn. rewrite Rmult_0_l, Rplus_0_l, sqrt_0. lra. }
  destruct (player_controls_turn_by_fixed_step_and_cap_speed
              principalAngle angleBetween multiplayerProps upKey true 16
              (startedSession multiplayerProps) _ H1 H2 H3 H4 H5)
    as (p' & Hp' & _ & _ & Hs & _).
  repeat split; try assumption.
  exists p'. split; [exact Hp' | exact Hs].
Defined.

(** ** The AI cars *)

Lemma aiCars_forEach_target
  (WrapAngle : R -> R) (AngleBetween : R -> R -> R -> R -> R)
  (destroyed : nat) (target : Rectangle) (cars : list Rectangle)
  (index : nat) :
  (destroyed <= index)%nat ->
  exists cars' : list Rectangle,
    aiCars_forEach WrapAngle AngleBetween destroyed (Some target) index cars
    = (cars', false) /\
    List.length cars' = List.length cars /\
    forall (j : nat) (aiCar : Rectangle),
      nth_error cars j = Some aiCar ->
      nth_error cars' j
      = Some (aiMove WrapAngle AngleBetween target (index + j) aiCar).
Proof.
  revert index. induction cars as [| c rest IH]; intros index Hle.
  - exists []. repeat split. intros [| j] aiCar H; discriminate H.
  - destruct (IH (S index) ltac:(lia)) as (rest' & Hrest & Hlen & Hnth).
    exists (aiMove WrapAngle AngleBetween target index c :: rest').
    cbn [aiCars_forEach].
    destruct (Nat.ltb_spec index destroyed) as [Hlt | Hge]; [lia |].
    rewrite Hrest.
    split; [reflexivity |]. split; [cbn; now rewrite Hlen |].
    intros [| j] aiCar H; cbn [nth_error] in *.
    + injection H as <-. now rewrite Nat.add_0_r.
    + rewrite (Hnth j aiCar H). now rewrite Nat.add_succ_r.
Qed.

Lemma aiMove_spec
  (WrapAngle : R -> R) (AngleBetween : R -> R -> R -> R -> R)
  (target : Rectangle) (index : nat) (aiCar : Rectangle) :
  let bearing :=
    AngleBetween (rect_x aiCar) (rect_y aiCar)
      (rect_x target) (rect_y target) in
  let moved := aiMove WrapAngle AngleBetween target index aiCar in
  rect_x moved = rect_x aiCar /\
  rect_y moved = rect_y aiCar /\
  rotation moved = WrapAngle (bearing + PI / 2) /\
  velocity_x moved = cos bearing * (200 + INR index * 20) /\
  velocity_y moved = sin bearing * (200 + INR index * 20) /\
  speed moved = 200 + INR index * 20.
Proof.
  cbv zeta. unfold aiMove. rewrite speed_setVelocity.
  repeat split. apply polar_norm, INR_index_speed.
Qed.

(** The claim of C6 fails in two places.  On the ticks that [update]
    does not process: in single mode, a tick before the countdown has
    elapsed returns at the first line and leaves the three AI cars at
    rest, which is not a velocity of magnitude 200 along any bearing.  And
    on the processed ticks of a restarted scene: after a click on the
    restart button in a started race the array holds the three destroyed
    cars of the old scene before the three new ones, the tick throws at
    the first of them, and the three new cars stay at rest. *)
Lemma ai_cars_rest_before_the_start_and_after_a_restart :
  update principalAngle angleBetween singleProps noKeys false 16
    (createdSession singleProps)
  = Returned (createdSession singleProps) [] /\
  map velocity_x (aiCars (createdSession singleProps)) = [0; 0; 0] /\
  map velocity_y (aiCars (createdSession singleProps)) = [0; 0; 0] /\
  ~ (exists bearing : R, 0 = cos bearing * 200 /\ 0 = sin bearing * 200) /\
  raceStarted
    (engine (fst (clickRestart singleProps (startedComponent singleProps))))
  = true /\
  threw
    (update principalAngle angleBetween singleProps noKeys false 16
       (engine (fst (clickRestart singleProps
                       (startedComponent singleProps)))))
  = true /\
  map velocity_x
    (skipn 3
       (aiCars
          (outcome_session
             (update principalAngle angleBetween singleProps noKeys false 16
                (engine (fst (clickRestart singleProps
                                (startedComponent singleProps))))))))
  = [0; 0; 0] /\
  map velocity_y
    (skipn 3
       (aiCars
          (outcome_session
             (update principalAngle angleBetween singleProps noKeys false 16
                (engine (fst (clickRestart singleProps
                                (startedComponent singleProps))))))))
  = [0; 0; 0].
Proof.
  split; [reflexivity |]. split; [reflexivity |]. split; [reflexivity |].
  split.
  - intros (bearing & Hc & Hs).
    pose proof (sin2_cos2 bearing) as H. unfold Rsqr in H.
    assert (cos bearing = 0) by lra. assert (sin bearing = 0) by lra.
    rewrite H0, H1 in H. lra.
  - split; [reflexivity |]. split; [reflexivity |].
    split; reflexivity.
Qed.

(** C6, as amended.  On a tick in single mode of a started race that is
    not paused, in a scene none of whose AI cars is a destroyed one, with
    the checkpoint at the expected index as the one target of all AI cars:
    [update] returns, and each AI car, the one at
    [index] in the list, stays where it is, has its rotation set to the
    bearing from its position to the target plus a quarter turn, so that
    its heading is the bearing, and has the velocity of magnitude
    [200 + 20 * index] along that bearing.  Three AI cars at one position
    so get one rotation and the speeds 200, 220 and 240.  A tick of a race
    that is not started or is paused returns at the first line of
    [update] and touches nothing. *)
Theorem ai_cars_head_for_the_expected_checkpoint
  (WrapAngle : R -> R) (AngleBetween : R -> R -> R -> R -> R)
  (props : GameCanvasProps) (cursors : CursorKeys) (connected : bool)
  (delta : R) (s : Session) (p target : Rectangle) :
  (forall a : R, cos (WrapAngle a) = cos a) ->
  (forall a : R, sin (WrapAngle a) = sin a) ->
  gameMode props = single ->
  raceStarted s = true ->
  isPaused s = false ->
  player s = Some p ->
  destroyedCars s = O ->
  array_get (checkpoints s) (currentCheckpoint s) = Some target ->
  let o := update WrapAngle AngleBetween props cursors connected delta s in
  let bearingOf (aiCar : Rectangle) :=
    AngleBetween (rect_x aiCar) (rect_y aiCar)
      (rect_x target) (rect_y target) in
  o = Returned (outcome_session o) [] /\
  List.length (aiCars (outcome_session o)) = List.length (aiCars s) /\
  (forall (index : nat) (aiCar : Rectangle),
      nth_error (aiCars s) index = Some aiCar ->
      exists aiCar' : Rectangle,
        nth_error (aiCars (outcome_session o)) index = Some aiCar' /\
        rect_x aiCar' = rect_x aiCar /\
        rect_y aiCar' = rect_y aiCar /\
        rotation aiCar' = WrapAngle (bearingOf aiCar + PI / 2) /\
        cos (heading aiCar') = cos (bearingOf aiCar) /\
        sin (heading aiCar') = sin (bearingOf aiCar) /\
        velocity_x aiCar' = cos (bearingOf aiCar) * (200 + INR index * 20) /\
        velocity_y aiCar' = sin (bearingOf aiCar) * (200 + INR index * 20) /\
        speed aiCar' = 200 + INR index * 20) /\
  (forall c0 c1 c2 : Rectangle,
      aiCars s = [c0; c1; c2] ->
      rect_x c1 = rect_x c0 -> rect_y c1 = rect_y c0 ->
      rect_x c2 = rect_x c0 -> rect_y c2 = rect_y c0 ->
      exists c0' c1' c2' : Rectangle,
        aiCars (outcome_session o) = [c0'; c1'; c2'] /\
        rotation c1' = rotation c0' /\ rotation c2' = rotation c0' /\
        (velocity_x c0', velocity_y c0')
        = (cos (bearingOf c0) * 200, sin (bearingOf c0) * 200) /\
        (velocity_x c1', velocity_y c1')
        = (cos (bearingOf c0) * 220, sin (bearingOf c0) * 220) /\
        (velocity_x c2', velocity_y c2')
        = (cos (bearingOf c0) * 240, sin (bearingOf c0) * 240) /\
        speed c0' = 200 /\ speed c1' = 220 /\ speed c2' = 240) /\
  (forall s0 : Session,
      raceStarted s0 = false \/ isPaused s0 = true ->
      update WrapAngle AngleBetween props cursors connected delta s0
      = Returned s0 []).
Proof.
  intros Hcos Hsin Hmode Hrs Hp Hpl Hlive Htarget o bearingOf.
  assert (Hgate : forall s0 : Session,
             raceStarted s0 = false \/ isPaused s0 = true ->
             update WrapAngle AngleBetween props cursors connected delta s0
             = Returned s0 []).
  { intros s0 [H0 | H0]; unfold update; rewrite H0;
      [reflexivity | now rewrite orb_true_r]. }
  destruct (aiCars_forEach_target WrapAngle AngleBetween O target
              (aiCars s) 0 (Nat.le_refl 0))
    as (cars' & Hloop & Hlen & Hnth).
  assert (Ho : o = Returned
                 (set_aiCars cars'
                    (set_player (Some (playerControls WrapAngle cursors p))
                       (set_raceTime (raceTime s + delta) s))) []).
  { subst o. unfold update. rewrite Hrs, Hp. cbn [negb orb].
    cbn [player set_raceTime]. rewrite Hpl, Hmode.
    cbn [checkpoints currentCheckpoint aiCars destroyedCars set_player
         set_raceTime].
    rewrite Htarget, Hlive, Hloop. reflexivity. }
  assert (Hcars : aiCars (outcome_session o) = cars')
    by (rewrite Ho; reflexivity).
  split; [rewrite Ho at 1; rewrite Ho; reflexivity |].
  split; [rewrite Hcars; exact Hlen |].
  assert (Hall : forall (index : nat) (aiCar : Rectangle),
    nth_error (aiCars s) index = Some aiCar ->
    exists aiCar' : Rectangle,
      nth_error (aiCars (outcome_session o)) index = Some aiCar' /\
      rect_x aiCar' = rect_x aiCar /\
      rect_y aiCar' = rect_y aiCar /\
      rotation aiCar' = WrapAngle (bearingOf aiCar + PI / 2) /\
      cos (heading aiCar') = cos (bearingOf aiCar) /\
      sin (heading aiCar') = sin (bearingOf aiCar) /\
      velocity_x aiCar' = cos (bearingOf aiCar) * (200 + INR index * 20) /\
      velocity_y aiCar' = sin (bearingOf aiCar) * (200 + INR index * 20) /\
      speed aiCar' = 200 + INR index * 20).
  { intros index aiCar Hin.
    exists (aiMove WrapAngle AngleBetween target index aiCar).
    rewrite Hcars. split; [exact (Hnth index aiCar Hin) |].
    destruct (aiMove_spec WrapAngle AngleBetween target index aiCar)
      as (Hx & Hy & Hrot & Hvx & Hvy & Hsp).
    fold (bearingOf aiCar) in Hrot, Hvx, Hvy.
    repeat split; try assumption; unfold heading; rewrite Hrot.
    - rewrite cos_minus, Hcos, Hsin, <- cos_minus. f_equal. ring.
    - rewrite sin_minus, Hcos, Hsin, <- sin_minus. f_equal. ring. }
  split; [exact Hall |].
  split; [| exact Hgate].
  intros c0 c1 c2 Hthree Hx1 Hy1 Hx2 Hy2.
  destruct (Hall 0%nat c0) as (c0' & Hn0 & _ & _ & Hr0 & _ & _ & Hvx0 & Hvy0 & Hs0);
    [rewrite Hthree; reflexivity |].
  destruct (Hall 1%nat c1) as (c1' & Hn1 & _ & _ & Hr1 & _ & _ & Hvx1 & Hvy1 & Hs1);
    [rewrite Hthree; reflexivity |].
  destruct (Hall 2%nat c2) as (c2' & Hn2 & _ & _ & Hr2 & _ & _ & Hvx2 & Hvy2 & Hs2);
    [rewrite Hthree; reflexivity |].
  assert (Hb1 : bearingOf c1 = bearingOf c0)
    by (unfold bearingOf; now rewrite Hx1, Hy1).
  assert (Hb2 : bearingOf c2 = bearingOf c0)
    by (unfold bearingOf; now rewrite Hx2, Hy2).
  rewrite Hb1 in *. rewrite Hb2 in *.
  exists c0', c1', c2'.
  assert (Hshape : aiCars (outcome_session o) = [c0'; c1'; c2']).
  { rewrite Hcars in *. rewrite Hthree in Hlen.
    destruct cars' as [| d0 [| d1 [| d2 [| d3 more]]]]; try discriminate Hlen.
    cbn in Hn0, Hn1, Hn2. congruence. }
  split; [exact Hshape |].
  split; [congruence |]. split; [congruence |].
  rewrite Hvx0, Hvy0, Hvx1, Hvy1, Hvx2, Hvy2, Hs0, Hs1, Hs2.
  cbn [INR].
  repeat split; try (f_equal; ring); ring.
Qed.

Lemma ai_cars_witness :
  (forall a : R, cos (principalAngle a) = cos a) /\
  (forall a : R, sin (principalAngle a) = sin a) /\
  gameMode singleProps = single /\
  raceStarted (startedSession singleProps) = true /\
  isPaused (startedSession singleProps) = false /\
  player (startedSession singleProps)
  = Some (setMaxVelocity 300 (setDrag 100 (add_rectangle 120 150))) /\
  destroyedCars (startedSession singleProps) = O /\
  array_get (checkpoints (startedSession singleProps))
    (currentCheckpoint (startedSession singleProps))
  = Some (add_rectangle 600 100) /\
  exists aiCar' : Rectangle,
    nth_error
      (aiCars (outcome_session
         (update principalAngle angleBetween singleProps noKeys false 16
            (startedSession singleProps)))) 1
    = Some aiCar' /\
    speed aiCar' = 200 + INR 1 * 20.
Proof.
  assert (H1 : forall a : R, cos (principalAngle a) = cos a)
    by (intro a; reflexivity).
  assert (H2 : forall a : R, sin (principalAngle a) = sin a)
    by (intro a; reflexivity).
  assert (H3 : gameMode singleProps = single) by reflexivity.
  assert (H4 : raceStarted (startedSession singleProps) = true)
    by reflexivity.
  assert (H5 : isPaused (startedSession singleProps) = false)
    by reflexivity.
  assert (H6 : player (startedSession singleProps)
               = Some (setMaxVelocity 300
                         (setDrag 100 (add_rectangle 120 150))))
    by reflexivity.
  assert (H7 : array_get (checkpoints (startedSession singleProps))
                 (currentCheckpoint (startedSession singleProps))
               = Some (add_rectangle 600 100)) by reflexivity.
  assert (H8 : destroyedCars (startedSession singleProps) = O)
    by reflexivity.
  destruct (ai_cars_head_for_the_expected_checkpoint
              principalAngle angleBetween singleProps noKeys false 16
              (startedSession singleProps) _ _ H1 H2 H3 H4 H5 H6 H8 H7)
    as (_ & _ & Hall & _).
  destruct (Hall 1%nat
              (setMaxVelocity 250
                 (setDrag 80 (add_rectangle 120 (180 + INR 1 * 30))))
              ltac:(reflexivity))
    as (aiCar' & Hnth & _ & _ & _ & _ & _ & _ & _ & Hsp).
  repeat split; try assumption.
  exists aiCar'. split; [exact Hnth | exact Hsp].
Defined.

(** * Further properties of the scene *)

Local Open Scope Z_scope.

(** ** What [update] leaves alone *)

Lemma ticks_cons (WrapAngle : R -> R) (AngleBetween : R -> R -> R -> R -> R)
  (props : GameCanvasProps) (f : Frame) (rest : list Frame) (s : Session) :
  ticks WrapAngle AngleBetween props (f :: rest) s
  = (fst (ticks WrapAngle AngleBetween props rest
            (outcome_session
               (update WrapAngle AngleBetween props (frame_cursors f)
                  (frame_connected f) (frame_delta f) s))),
     outcome_events
       (update WrapAngle AngleBetween props (frame_cursors f)
          (frame_connected f) (frame_delta f) s)
     ++ snd (ticks WrapAngle AngleBetween props rest
               (outcome_session
                  (update WrapAngle AngleBetween props (frame_cursors f)
                     (frame_connected f) (frame_delta f) s)))).
Proof.
  cbn [ticks]. destruct (ticks WrapAngle AngleBetween props rest _).
  reflexivity.
Qed.

Lemma update_keeps_progress
  (WrapAngle : R -> R) (AngleBetween : R -> R -> R -> R -> R)
  (props : GameCanvasProps) (cursors : CursorKeys) (connected : bool)
  (delta : R) (s : Session) :
  let s' :=
    outcome_session
      (update WrapAngle AngleBetween props cursors connected delta s) in
  currentCheckpoint s' = currentCheckpoint s /\
  lapCount s' = lapCount s /\
  maxLaps s' = maxLaps s /\
  raceStarted s' = raceStarted s /\
  isPaused s' = isPaused s /\
  gameLoaded s' = gameLoaded s /\
  checkpoints s' = checkpoints s.
Proof.
  unfold update.
  destruct (negb (raceStarted s) || isPaused s); [now repeat split |].
  cbn [player set_raceTime].
  destruct (player s); [| now repeat split].
  destruct (gameMode props); [| now repeat split].
  destruct (aiCars_forEach _ _ _ _ _ _) as [cars thrown].
  destruct thrown; now repeat split.
Qed.

(** X1.  Whatever the frames bring, calls of [update] never write the
    expected index, the lap count, the lap target, [raceStarted],
    [isPaused], [gameLoaded] or the checkpoints: ticks alone neither
    advance nor finish a race. *)
Theorem ticks_never_touch_race_progress
  (WrapAngle : R -> R) (AngleBetween : R -> R -> R -> R -> R)
  (props : GameCanvasProps) (frames : list Frame) (s : Session) :
  let s' := fst (ticks WrapAngle AngleBetween props frames s) in
  currentCheckpoint s' = currentCheckpoint s /\
  lapCount s' = lapCount s /\
  maxLaps s' = maxLaps s /\
  raceStarted s' = raceStarted s /\
  isPaused s' = isPaused s /\
  gameLoaded s' = gameLoaded s /\
  checkpoints s' = checkpoints s.
Proof.
  revert s. induction frames as [| f rest IH]; intro s; cbn zeta.
  - now repeat split.
  - rewrite ticks_cons. cbn [fst].
    destruct (IH (outcome_session
                    (update WrapAngle AngleBetween props (frame_cursors f)
                       (frame_connected f) (frame_delta f) s)))
      as (H1 & H2 & H3 & H4 & H5 & H6 & H7).
    destruct (update_keeps_progress WrapAngle AngleBetween props
                (frame_cursors f) (frame_connected f) (frame_delta f) s)
      as (G1 & G2 & G3 & G4 & G5 & G6 & G7).
    rewrite H1, H2, H3, H4, H5, H6, H7. now repeat split.
Qed.

Lemma samePlace_refl (r : Rectangle) : samePlace r r.
Proof. now repeat split. Qed.

Lemma samePlace_trans (r1 r2 r3 : Rectangle) :
  samePlace r1 r2 -> samePlace r2 r3 -> samePlace r1 r3.
Proof.
  intros (A1 & A2 & A3 & A4) (B1 & B2 & B3 & B4).
  repeat split; congruence.
Qed.

Lemma playerControls_samePlace (WrapAngle : R -> R) (cursors : CursorKeys)
  (p : Rectangle) :
  samePlace p (playerControls WrapAngle cursors p).
Proof.
  unfold playerControls.
  destruct (left_isDown cursors), (right_isDown cursors),
    (up_isDown cursors), (down_isDown cursors); now repeat split.
Qed.

Lemma Forall2_samePlace_refl (cars : list Rectangle) :
  Forall2 samePlace cars cars.
Proof. induction cars; constructor; [apply samePlace_refl | assumption]. Qed.

Lemma aiCars_forEach_samePlace
  (WrapAngle : R -> R) (AngleBetween : R -> R -> R -> R -> R)
  (destroyed : nat) (target : option Rectangle) (cars : list Rectangle)
  (index : nat) :
  Forall2 samePlace cars
    (fst (aiCars_forEach WrapAngle AngleBetween destroyed target index cars)).
Proof.
  revert index. induction cars as [| c rest IH]; intro index.
  - constructor.
  - cbn [aiCars_forEach]. destruct target as [t |];
      [| apply Forall2_samePlace_refl].
    destruct (index <? destroyed)%nat.
    + constructor; [now repeat split | apply Forall2_samePlace_refl].
    + specialize (IH (S index)).
      destruct (aiCars_forEach WrapAngle AngleBetween destroyed (Some t)
                  (S index) rest) as [rest' thrown].
      constructor; [now repeat split | exact IH].
Qed.

Lemma Forall2_samePlace_trans (l1 l2 l3 : list Rectangle) :
  Forall2 samePlace l1 l2 -> Forall2 samePlace l2 l3 ->
  Forall2 samePlace l1 l3.
Proof.
  intro H. revert l3. induction H as [| a b l1 l2 Hab _ IH]; intros l3 H23.
  - inversion H23. constructor.
  - inversion H23 as [| b' c l2' l3' Hbc Hrest]; subst.
    constructor; [eapply samePlace_trans; eassumption | now apply IH].
Qed.

Lemma samePlayerPlace_trans (p1 p2 p3 : option Rectangle) :
  samePlayerPlace p1 p2 -> samePlayerPlace p2 p3 -> samePlayerPlace p1 p3.
Proof.
  destruct p1, p2, p3; cbn; try tauto. apply samePlace_trans.
Qed.

Lemma update_keeps_places
  (WrapAngle : R -> R) (AngleBetween : R -> R -> R -> R -> R)
  (props : GameCanvasProps) (cursors : CursorKeys) (connected : bool)
  (delta : R) (s : Session) :
  let s' :=
    outcome_session
      (update WrapAngle AngleBetween props cursors connected delta s) in
  samePlayerPlace (player s) (player s') /\
  Forall2 samePlace (aiCars s) (aiCars s').
Proof.
  assert (Hsame : samePlayerPlace (player s) (player s))
    by (destruct (player s); cbn; [apply samePlace_refl | exact I]).
  unfold update.
  destruct (negb (raceStarted s) || isPaused s);
    [split; [exact Hsame | apply Forall2_samePlace_refl] |].
  cbn [player set_raceTime].
  destruct (player s) as [p |] eqn:Ep;
    [| split; [cbn; now rewrite Ep | apply Forall2_samePlace_refl]].
  destruct (gameMode props).
  - cbn [aiCars checkpoints currentCheckpoint destroyedCars set_player
         set_raceTime].
    pose proof (aiCars_forEach_samePlace WrapAngle AngleBetween
                  (destroyedCars s)
                  (array_get (checkpoints s) (currentCheckpoint s))
                  (aiCars s) 0) as Hcars.
    destruct (aiCars_forEach WrapAngle AngleBetween (destroyedCars s)
                (array_get (checkpoints s) (currentCheckpoint s)) 0
                (aiCars s)) as [cars' thrown].
    destruct thrown; cbn;
      (split; [apply playerControls_samePlace | exact Hcars]).
  - cbn. split; [apply playerControls_samePlace | apply Forall2_samePlace_refl].
Qed.

(** X2.  Calls of [update] never move a car: after any frames the player
    car and each AI car are where they were, with the drag and the maximum
    velocity they had, and there are as many AI cars as before.  [update]
    writes rotations and velocities only; positions are the engine's. *)
Theorem ticks_never_move_a_car
  (WrapAngle : R -> R) (AngleBetween : R -> R -> R -> R -> R)
  (props : GameCanvasProps) (frames : list Frame) (s : Session) :
  let s' := fst (ticks WrapAngle AngleBetween props frames s) in
  samePlayerPlace (player s) (player s') /\
  Forall2 samePlace (aiCars s) (aiCars s') /\
  List.length (aiCars s') = List.length (aiCars s).
Proof.
  cbn zeta.
  assert (H : samePlayerPlace (player s)
                (player (fst (ticks WrapAngle AngleBetween props frames s)))
              /\ Forall2 samePlace (aiCars s)
                   (aiCars (fst (ticks WrapAngle AngleBetween props frames s)))).
  { revert s. induction frames as [| f rest IH]; intro s.
    - cbn. split; [| apply Forall2_samePlace_refl].
      destruct (player s); cbn; [apply samePlace_refl | exact I].
    - rewrite ticks_cons. cbn [fst].
      destruct (update_keeps_places WrapAngle AngleBetween props
                  (frame_cursors f) (frame_connected f) (frame_delta f) s)
        as (Hp & Ha).
      destruct (IH (outcome_session
                      (update WrapAngle AngleBetween props (frame_cursors f)
                         (frame_connected f) (frame_delta f) s)))
        as (Hp' & Ha').
      split; [eapply samePlayerPlace_trans | eapply Forall2_samePlace_trans];
        eassumption. }
  destruct H as (Hp & Ha). split; [exact Hp |]. split; [exact Ha |].
  symmetry. exact (Forall2_length Ha).
Qed.

(** ** The race clock *)

Lemma update_raceTime
  (WrapAngle : R -> R) (AngleBetween : R -> R -> R -> R -> R)
  (props : GameCanvasProps) (cursors : CursorKeys) (connected : bool)
  (delta : R) (s : Session) :
  raceTime
    (outcome_session
       (update WrapAngle AngleBetween props cursors connected delta s))
  = (if raceStarted s && negb (isPaused s)
     then raceTime s + delta else raceTime s)%R.
Proof.
  unfold update.
  destruct (raceStarted s), (isPaused s); cbn [negb orb andb];
    try reflexivity.
  cbn [player set_raceTime].
  destruct (player s); [| reflexivity].
  destruct (gameMode props); [| reflexivity].
  destruct (aiCars_forEach _ _ _ _ _ _) as [cars thrown].
  destruct thrown; reflexivity.
Qed.

(** X3.  [raceTime] is the sum of the time steps of the frames that came
    while the race was started and not paused: any frames add their whole
    sum to it in that case, even when a call of [update] throws after the
    addition, and add nothing otherwise. *)
Theorem raceTime_is_the_sum_of_the_processed_deltas
  (WrapAngle : R -> R) (AngleBetween : R -> R -> R -> R -> R)
  (props : GameCanvasProps) (frames : list Frame) (s : Session) :
  raceTime (fst (ticks WrapAngle AngleBetween props frames s))
  = (if raceStarted s && negb (isPaused s)
     then raceTime s + total_delta frames else raceTime s)%R.
Proof.
  revert s. induction frames as [| f rest IH]; intro s.
  - cbn. destruct (raceStarted s && negb (isPaused s)); lra.
  - rewrite ticks_cons. cbn [fst total_delta]. rewrite IH.
    destruct (update_keeps_progress WrapAngle AngleBetween props
                (frame_cursors f) (frame_connected f) (frame_delta f) s)
      as (_ & _ & _ & Hrs & Hp & _).
    rewrite Hrs, Hp, update_raceTime.
    destruct (raceStarted s && negb (isPaused s)); lra.
Qed.

Lemma update_not_started
  (WrapAngle : R -> R) (AngleBetween : R -> R -> R -> R -> R)
  (props : GameCanvasProps) (cursors : CursorKeys) (connected : bool)
  (delta : R) (s : Session) :
  raceStarted s = false ->
  update WrapAngle AngleBetween props cursors connected delta s
  = Returned s [].
Proof. intro H. unfold update. now rewrite H. Qed.

Lemma ticks_not_started
  (WrapAngle : R -> R) (AngleBetween : R -> R -> R -> R -> R)
  (props : GameCanvasProps) (frames : list Frame) (s : Session) :
  raceStarted s = false ->
  ticks WrapAngle AngleBetween props frames s = (s, []).
Proof.
  intro H. induction frames as [| f rest IH]; [reflexivity |].
  rewrite ticks_cons, update_not_started by exact H.
  cbn [outcome_session outcome_events]. now rewrite IH.
Qed.

(** X4.  Once [finishRace] has run, frames change nothing and emit
    nothing: the clock stands at the final time, the keys no longer steer
    the car and the AI cars get no new velocity, until the countdown timer
    of a new [create] sets [raceStarted] again. *)
Theorem no_tick_is_processed_after_the_finish
  (WrapAngle : R -> R) (AngleBetween : R -> R -> R -> R -> R)
  (props : GameCanvasProps) (frames : list Frame) (s : Session) :
  ticks WrapAngle AngleBetween props frames (fst (finishRace props s))
  = (fst (finishRace props s), []) /\
  raceTime (fst (ticks WrapAngle AngleBetween props frames
                   (fst (finishRace props s))))
  = raceTime s /\
  player (fst (ticks WrapAngle AngleBetween props frames
                 (fst (finishRace props s))))
  = player s /\
  aiCars (fst (ticks WrapAngle AngleBetween props frames
                 (fst (finishRace props s))))
  = aiCars s.
Proof.
  assert (H1 : ticks WrapAngle AngleBetween props frames
                 (fst (finishRace props s))
               = (fst (finishRace props s), []))
    by (apply ticks_not_started; reflexivity).
  split; [exact H1 |].
  rewrite H1. now repeat split.
Qed.

(** ** When [update] throws *)

Lemma aiCars_forEach_thrown
  (WrapAngle : R -> R) (AngleBetween : R -> R -> R -> R -> R)
  (destroyed : nat) (target : option Rectangle) (cars : list Rectangle)
  (index : nat) :
  snd (aiCars_forEach WrapAngle AngleBetween destroyed target index cars)
  = match cars with
    | [] => false
    | _ :: _ =>
        match target with
        | None => true
        | Some _ => (index <? destroyed)%nat
        end
    end.
Proof.
  destruct cars as [| c rest]; [reflexivity |].
  destruct target as [t |]; [| reflexivity].
  cbn [aiCars_forEach].
  destruct (Nat.ltb_spec index destroyed) as [Hlt | Hge]; [reflexivity |].
  destruct (aiCars_forEach_target WrapAngle AngleBetween destroyed t rest
              (S index) ltac:(lia)) as (rest' & -> & _).
  reflexivity.
Qed.

(** X5.  A call of [update] is aborted by a [TypeError] in three cases
    only, all within a started race that is not paused: there is no
    player car; or the game is in single mode, has an AI car, and the
    expected index is not the index of a checkpoint; or the game is in
    single mode, the target is there, and the array of AI cars begins
    with a destroyed car of an earlier run of the scene, which has no
    body.  In every other case it returns. *)
Theorem update_throws_only_without_player_target_or_body
  (WrapAngle : R -> R) (AngleBetween : R -> R -> R -> R -> R)
  (props : GameCanvasProps) (cursors : CursorKeys) (connected : bool)
  (delta : R) (s : Session) :
  threw (update WrapAngle AngleBetween props cursors connected delta s)
  = raceStarted s && negb (isPaused s)
    && match player s with
       | None => true
       | Some _ =>
           match gameMode props with
           | single =>
               match aiCars s with
               | [] => false
               | _ :: _ =>
                   match array_get (checkpoints s) (currentCheckpoint s) with
                   | None => true
                   | Some _ => (0 <? destroyedCars s)%nat
                   end
               end
           | multiplayer => false
           end
       end.
Proof.
  unfold update.
  destruct (raceStarted s), (isPaused s); cbn [negb orb andb];
    try reflexivity.
  cbn [player set_raceTime].
  destruct (player s) as [p |]; [| reflexivity].
  destruct (gameMode props); [| reflexivity].
  cbn [aiCars checkpoints currentCheckpoint destroyedCars set_player
       set_raceTime].
  pose proof (aiCars_forEach_thrown WrapAngle AngleBetween
                (destroyedCars s)
                (array_get (checkpoints s) (currentCheckpoint s))
                (aiCars s) 0) as H.
  destruct (aiCars_forEach WrapAngle AngleBetween (destroyedCars s)
              (array_get (checkpoints s) (currentCheckpoint s)) 0 (aiCars s))
    as [cars thrown].
  cbn [snd] in H. rewrite H.
  destruct (aiCars s) as [| c rest]; [reflexivity |].
  destruct (array_get (checkpoints s) (currentCheckpoint s));
    [| reflexivity].
  destruct (0 <? destroyedCars s)%nat; reflexivity.
Qed.

(** ** Checkpoints crossed in any order *)

Lemma overlaps_cons (props : GameCanvasProps) (index : Z) (rest : list Z)
  (s : Session) :
  overlaps props (index :: rest) s
  = (fst (overlaps props rest (fst (checkpointOverlap props index s))),
     snd (checkpointOverlap props index s)
     ++ snd (overlaps props rest (fst (checkpointOverlap props index s)))).
Proof.
  cbn [overlaps]. destruct (checkpointOverlap props index s) as [s1 ev1].
  cbn [fst snd]. destruct (overlaps props rest s1). reflexivity.
Qed.

Lemma checkpointOverlap_frame (props : GameCanvasProps) (index : Z)
  (s : Session) :
  let s' := fst (checkpointOverlap props index s) in
  checkpoints s' = checkpoints s /\
  maxLaps s' = maxLaps s /\
  raceTime s' = raceTime s /\
  player s' = player s /\
  aiCars s' = aiCars s /\
  isPaused s' = isPaused s.
Proof.
  unfold checkpointOverlap.
  destruct (index =? currentCheckpoint s); [| now repeat split].
  cbn.
  destruct (Z.rem (currentCheckpoint s + 1) (checkpoints_length s) =? 0);
    [| now repeat split].
  destruct (lapCount s + 1 >=? maxLaps s); now repeat split.
Qed.

Lemma checkpointOverlap_length (props : GameCanvasProps) (index : Z)
  (s : Session) :
  checkpoints_length (fst (checkpointOverlap props index s))
  = checkpoints_length s.
Proof.
  unfold checkpoints_length.
  destruct (checkpointOverlap_frame props index s) as (H & _).
  now rewrite H.
Qed.

Lemma checkpointOverlap_progress (props : GameCanvasProps) (index : Z)
  (s : Session) :
  0 <= currentCheckpoint s < checkpoints_length s ->
  let s' := fst (checkpointOverlap props index s) in
  0 <= currentCheckpoint s' < checkpoints_length s /\
  lapCount s <= lapCount s' /\
  progress s'
  = progress s + (if index =? currentCheckpoint s then 1 else 0).
Proof.
  intros Hc. cbv zeta. unfold progress.
  rewrite checkpointOverlap_length.
  destruct (Z.eqb_spec index (currentCheckpoint s)) as [E | E].
  - subst index. fold (enterExpected props s).
    destruct (enterExpected_step props s) as (_ & _ & _ & Hcc & Hlap & _).
    rewrite Hcc, Hlap. rewrite Z.rem_mod_nonneg by lia.
    destruct (Z.eq_dec (currentCheckpoint s + 1) (checkpoints_length s))
      as [Hw | Hw].
    + rewrite Hw, Z.mod_same by lia. cbn. lia.
    + rewrite Z.mod_small by lia.
      destruct (Z.eqb_spec (currentCheckpoint s + 1) 0); lia.
  - rewrite checkpointOverlap_unexpected by (now apply Z.eqb_neq).
    cbn. lia.
Qed.

Lemma hits_le_length (props : GameCanvasProps) (indexes : list Z)
  (s : Session) :
  (hits props indexes s <= List.length indexes)%nat.
Proof.
  revert s. induction indexes as [| index rest IH]; intro s; cbn; [lia |].
  specialize (IH (fst (checkpointOverlap props index s))).
  destruct (index =? currentCheckpoint s); lia.
Qed.

(** X6.  With the expected index in range, crossing checkpoints in any
    order never loses or skips progress: the checkpoints counted, as laps
    times the number of checkpoints plus the expected index, grow by
    exactly the number of crossings that met the expected index, which is
    at most the number of crossings; the expected index stays in range,
    the lap count never goes down, and the laps gained times the number of
    checkpoints are at most the expected index at the start plus the
    number of crossings. *)
Theorem progress_counts_the_expected_crossings
  (props : GameCanvasProps) (indexes : list Z) (s : Session) :
  0 <= currentCheckpoint s < checkpoints_length s ->
  let s' := fst (overlaps props indexes s) in
  progress s' = progress s + Z.of_nat (hits props indexes s) /\
  (hits props indexes s <= List.length indexes)%nat /\
  0 <= currentCheckpoint s' < checkpoints_length s /\
  checkpoints s' = checkpoints s /\
  lapCount s <= lapCount s' /\
  (lapCount s' - lapCount s) * checkpoints_length s
  <= currentCheckpoint s + Z.of_nat (List.length indexes).
Proof.
  intro Hc. cbv zeta.
  assert (H : progress (fst (overlaps props indexes s))
              = progress s + Z.of_nat (hits props indexes s) /\
              0 <= currentCheckpoint (fst (overlaps props indexes s))
                < checkpoints_length s /\
              checkpoints (fst (overlaps props indexes s)) = checkpoints s /\
              lapCount s <= lapCount (fst (overlaps props indexes s))).
  { revert s Hc. induction indexes as [| index rest IH]; intros s Hc.
    - cbn. repeat split; lia.
    - rewrite overlaps_cons. cbn [fst hits].
      destruct (checkpointOverlap_progress props index s Hc)
        as (Hc1 & Hlap1 & Hp1).
      pose proof (checkpointOverlap_length props index s) as HN.
      destruct (checkpointOverlap_frame props index s) as (Hcp & _).
      destruct (IH (fst (checkpointOverlap props index s))
                  ltac:(rewrite HN; exact Hc1))
        as (Hp & Hc' & Hcp' & Hlap').
      rewrite HN in Hc'. rewrite Hp, Hp1, Hcp', Hcp.
      repeat split; try lia.
      destruct (index =? currentCheckpoint s); lia. }
  destruct H as (Hp & Hc' & Hcp & Hlap).
  pose proof (hits_le_length props indexes s) as Hh.
  assert (HN : checkpoints_length (fst (overlaps props indexes s))
               = checkpoints_length s)
    by (unfold checkpoints_length; now rewrite Hcp).
  repeat split; try assumption; try lia.
  unfold progress in Hp. rewrite HN in Hp. nia.
Qed.

Lemma progress_counts_witness :
  0 <= currentCheckpoint (startedSession singleProps)
    < checkpoints_length (startedSession singleProps) /\
  progress
    (fst (overlaps singleProps [0; 3; 1; 1; 2; 4; 3; 4; 0]
            (startedSession singleProps)))
  = 6.
Proof.
  assert (H : 0 <= currentCheckpoint (startedSession singleProps)
              < checkpoints_length (startedSession singleProps))
    by (cbn; lia).
  split; [exact H |].
  destruct (progress_counts_the_expected_crossings singleProps
              [0; 3; 1; 1; 2; 4; 3; 4; 0] (startedSession singleProps) H)
    as (Hp & _).
  rewrite Hp. reflexivity.
Defined.

Lemma checkpointOverlap_events (props : GameCanvasProps) (index : Z)
  (s : Session) (e : Event) :
  In e (snd (checkpointOverlap props index s)) ->
  (e = ToastLapCompleted (lapCount s + 1) (raceTime s / 1000)%R /\
   lapCount (fst (checkpointOverlap props index s)) = lapCount s + 1) \/
  (maxLaps s <= lapCount s + 1 /\
   In e (finishRace_calls props (raceTime s / 1000)%R (lapCount s + 1))).
Proof.
  destruct (Z.eqb_spec index (currentCheckpoint s)) as [E | E].
  - subst index. fold (enterExpected props s).
    destruct (enterExpected_step props s)
      as (_ & _ & _ & _ & Hlap & _ & Hev).
    rewrite Hev, Hlap.
    destruct (Z.rem (currentCheckpoint s + 1) (checkpoints_length s) =? 0);
      [| intros []].
    intros [<- | Hin]; [left; now split |].
    destruct (lapCount s + 1 >=? maxLaps s) eqn:G; [| destruct Hin].
    right. rewrite Z.geb_le in G. now split.
  - rewrite checkpointOverlap_unexpected by (now apply Z.eqb_neq).
    intros [].
Qed.

Lemma checkpointOverlap_below_target (props : GameCanvasProps) (index : Z)
  (s : Session) :
  lapCount (fst (checkpointOverlap props index s)) < maxLaps s ->
  raceStarted (fst (checkpointOverlap props index s)) = raceStarted s /\
  forall e : Event,
    In e (snd (checkpointOverlap props index s)) ->
    exists (lap : Z) (seconds : R), e = ToastLapCompleted lap seconds.
Proof.
  destruct (Z.eqb_spec index (currentCheckpoint s)) as [E | E].
  - subst index. fold (enterExpected props s).
    destruct (enterExpected_step props s)
      as (_ & _ & _ & _ & Hlap & Hrs & Hev).
    rewrite Hlap, Hrs, Hev.
    destruct (Z.rem (currentCheckpoint s + 1) (checkpoints_length s) =? 0);
      cbn [andb]; [| intros _; split; [reflexivity | intros e []]].
    intro Hlt.
    destruct (lapCount s + 1 >=? maxLaps s) eqn:G;
      [rewrite Z.geb_le in G; lia |].
    split; [reflexivity |].
    intros e [<- | []]. now eexists _, _.
  - rewrite checkpointOverlap_unexpected by (now apply Z.eqb_neq).
    intros _. split; [reflexivity | intros e []].
Qed.

Lemma checkpointOverlap_lap_monotone (props : GameCanvasProps) (index : Z)
  (s : Session) :
  lapCount s <= lapCount (fst (checkpointOverlap props index s)).
Proof.
  destruct (Z.eqb_spec index (currentCheckpoint s)) as [E | E].
  - subst index. fold (enterExpected props s).
    destruct (enterExpected_step props s) as (_ & _ & _ & _ & Hlap & _).
    rewrite Hlap.
    destruct (Z.rem (currentCheckpoint s + 1) (checkpoints_length s) =? 0);
      lia.
  - rewrite checkpointOverlap_unexpected by (now apply Z.eqb_neq).
    cbn. lia.
Qed.

Lemma overlaps_lap_monotone (props : GameCanvasProps) (indexes : list Z)
  (s : Session) :
  lapCount s <= lapCount (fst (overlaps props indexes s)) /\
  maxLaps (fst (overlaps props indexes s)) = maxLaps s /\
  raceTime (fst (overlaps props indexes s)) = raceTime s.
Proof.
  revert s. induction indexes as [| index rest IH]; intro s.
  - cbn. repeat split; lia.
  - rewrite overlaps_cons. cbn [fst].
    destruct (IH (fst (checkpointOverlap props index s))) as (H1 & H2 & H3).
    destruct (checkpointOverlap_frame props index s) as (_ & G2 & G3 & _).
    pose proof (checkpointOverlap_lap_monotone props index s).
    rewrite H2, H3. repeat split; try assumption. lia.
Qed.

Lemma overlaps_below_target (props : GameCanvasProps) (indexes : list Z)
  (s : Session) :
  lapCount (fst (overlaps props indexes s)) < maxLaps s ->
  raceStarted (fst (overlaps props indexes s)) = raceStarted s /\
  forall e : Event,
    In e (snd (overlaps props indexes s)) ->
    exists (lap : Z) (seconds : R), e = ToastLapCompleted lap seconds.
Proof.
  revert s. induction indexes as [| index rest IH]; intros s Hlt.
  - cbn. split; [reflexivity | intros e []].
  - rewrite overlaps_cons in *. cbn [fst snd] in *.
    destruct (checkpointOverlap_frame props index s) as (_ & Hml & _).
    destruct (overlaps_lap_monotone props rest
                (fst (checkpointOverlap props index s))) as (Hmono & _).
    destruct (IH (fst (checkpointOverlap props index s))
                ltac:(rewrite Hml; exact Hlt)) as (Hrs & Hev).
    destruct (checkpointOverlap_below_target props index s ltac:(lia))
      as (Hrs1 & Hev1).
    split; [now rewrite Hrs, Hrs1 |].
    intros e Hin. apply in_app_or in Hin. destruct Hin; auto.
Qed.

(** X7.  No order of crossings finishes the race early.  From a session
    in which the race has just started, with lap target [L >= 1] and [N]
    checkpoints, after fewer than [L * N] crossings, of whichever
    checkpoints in whichever order, the race is still started, fewer than
    [L] laps are counted, and nothing but lap toasts has been emitted: no
    finish toast, no race result, no socket message. *)
Theorem no_order_of_crossings_finishes_early
  (props : GameCanvasProps) (indexes : list Z) (s : Session) :
  1 <= maxLaps s ->
  1 <= checkpoints_length s ->
  freshRacing s ->
  Z.of_nat (List.length indexes) < maxLaps s * checkpoints_length s ->
  raceStarted (fst (overlaps props indexes s)) = true /\
  lapCount (fst (overlaps props indexes s)) < maxLaps s /\
  forall e : Event,
    In e (snd (overlaps props indexes s)) ->
    exists (lap : Z) (seconds : R), e = ToastLapCompleted lap seconds.
Proof.
  intros HL HN (Hrs & Hc0 & Hl0) Hlen.
  assert (Hc : 0 <= currentCheckpoint s < checkpoints_length s) by lia.
  assert (Hbound :
    (lapCount (fst (overlaps props indexes s)) - lapCount s)
    * checkpoints_length s
    <= currentCheckpoint s + Z.of_nat (List.length indexes)).
  { revert s Hc HL HN Hrs Hc0 Hl0 Hlen.
    intros s Hc _ _ _ _ _ _.
    assert (H : progress (fst (overlaps props indexes s))
                <= progress s + Z.of_nat (List.length indexes) /\
                0 <= currentCheckpoint (fst (overlaps props indexes s)) /\
                checkpoints_length (fst (overlaps props indexes s))
                = checkpoints_length s).
    { revert s Hc. induction indexes as [| index rest IH]; intros s Hc.
      - cbn [overlaps fst List.length]. repeat split; lia.
      - rewrite overlaps_cons. cbn [fst List.length].
        destruct (checkpointOverlap_progress props index s Hc)
          as (Hc1 & _ & Hp1).
        pose proof (checkpointOverlap_length props index s) as HN1.
        destruct (IH (fst (checkpointOverlap props index s))
                    ltac:(rewrite HN1; exact Hc1)) as (Hp & Hc' & HN').
        rewrite HN', HN1. repeat split; try lia.
        destruct (index =? currentCheckpoint s); lia. }
    destruct H as (Hp & Hc' & HN'). unfold progress in Hp.
    rewrite HN' in Hp. nia. }
  assert (Hlt : lapCount (fst (overlaps props indexes s)) < maxLaps s).
  { rewrite Hc0, Hl0 in Hbound. nia. }
  destruct (overlaps_below_target props indexes s Hlt) as (Hflag & Hev).
  split; [now rewrite Hflag |]. split; [exact Hlt | exact Hev].
Qed.

Lemma no_early_finish_witness :
  1 <= maxLaps (startedSession singleProps) /\
  1 <= checkpoints_length (startedSession singleProps) /\
  freshRacing (startedSession singleProps) /\
  Z.of_nat (List.length [0; 4; 0; 4; 0; 4; 1; 2; 3; 4; 0; 1; 2; 3])
  < maxLaps (startedSession singleProps)
    * checkpoints_length (startedSession singleProps) /\
  raceStarted
    (fst (overlaps singleProps [0; 4; 0; 4; 0; 4; 1; 2; 3; 4; 0; 1; 2; 3]
            (startedSession singleProps)))
  = true.
Proof.
  assert (H1 : 1 <= maxLaps (startedSession singleProps)) by (cbn; lia).
  assert (H2 : 1 <= checkpoints_length (startedSession singleProps))
    by (cbn; lia).
  assert (H3 : freshRacing (startedSession singleProps))
    by (repeat split; reflexivity).
  assert (H4 : Z.of_nat
                 (List.length [0; 4; 0; 4; 0; 4; 1; 2; 3; 4; 0; 1; 2; 3])
               < maxLaps (startedSession singleProps)
                 * checkpoints_length (startedSession singleProps))
    by (cbn; lia).
  split; [exact H1 |]. split; [exact H2 |]. split; [exact H3 |].
  split; [exact H4 |].
  exact (proj1 (no_order_of_crossings_finishes_early singleProps
                  [0; 4; 0; 4; 0; 4; 1; 2; 3; 4; 0; 1; 2; 3]
                  (startedSession singleProps) H1 H2 H3 H4)).
Defined.

Lemma finishRace_calls_result (props : GameCanvasProps) (finalTime : R)
  (lap : Z) (r : RaceResult) :
  In (OnGameEnd r) (finishRace_calls props finalTime lap) ->
  onGameEnd props = true /\
  r = {| time := finalTime; laps := lap; position := 1 |}.
Proof.
  destruct props as [mode cb]. unfold finishRace_calls.
  destruct mode, cb; cbn; intro Hin;
    repeat (destruct Hin as [Hin | Hin]; try discriminate Hin);
    try contradiction; injection Hin as <-; now split.
Qed.

(** X8.  A race result is never reported short of the lap target.
    Whatever the session and whatever the order of the crossings, every
    result handed to [onGameEnd] carries a lap count that has reached
    [maxLaps], the position 1, and the race time in seconds; and none is
    handed over when the prop was not given. *)
Theorem every_result_has_reached_the_lap_target
  (props : GameCanvasProps) (indexes : list Z) (s : Session)
  (r : RaceResult) :
  In (OnGameEnd r) (snd (overlaps props indexes s)) ->
  maxLaps s <= laps r /\
  lapCount s < laps r <= lapCount (fst (overlaps props indexes s)) /\
  position r = 1 /\
  time r = (raceTime s / 1000)%R /\
  onGameEnd props = true.
Proof.
  revert s. induction indexes as [| index rest IH]; intros s Hin.
  - destruct Hin.
  - rewrite overlaps_cons in *. cbn [fst snd] in *.
    destruct (checkpointOverlap_frame props index s)
      as (_ & Hml & Ht & _).
    pose proof (checkpointOverlap_lap_monotone props index s) as Hmono.
    destruct (overlaps_lap_monotone props rest
                (fst (checkpointOverlap props index s))) as (Hmono' & _).
    apply in_app_or in Hin. destruct Hin as [Hin | Hin].
    + pose proof Hin as Hin'.
      apply checkpointOverlap_events in Hin.
      destruct Hin as [(Habs & _) | (Hge & Hcalls)]; [discriminate Habs |].
      apply finishRace_calls_result in Hcalls. destruct Hcalls as (Hcb & ->).
      cbn [laps position time].
      assert (Hlap1 : lapCount (fst (checkpointOverlap props index s))
                      = lapCount s + 1).
      { destruct (Z.eqb_spec index (currentCheckpoint s)) as [E | E].
        - subst index. fold (enterExpected props s) in *.
          destruct (enterExpected_step props s)
            as (_ & _ & _ & _ & Hlap & _ & Hev).
          rewrite Hlap. rewrite Hev in Hin'.
          destruct (Z.rem (currentCheckpoint s + 1) (checkpoints_length s)
                    =? 0); [reflexivity | destruct Hin'].
        - rewrite checkpointOverlap_unexpected in Hin'
            by (now apply Z.eqb_neq).
          destruct Hin'. }
      repeat split; try assumption; try reflexivity; lia.
    + destruct (IH _ Hin) as (H1 & H2 & H3 & H4 & H5).
      rewrite Hml in H1. rewrite Ht in H4.
      repeat split; try assumption; lia.
Qed.

Lemma every_result_witness :
  In (OnGameEnd {| time := (0 / 1000)%R; laps := 3; position := 1 |})
    (snd (overlaps singleProps
            [0; 1; 2; 3; 4; 0; 1; 2; 3; 4; 0; 1; 2; 3; 4]
            (startedSession singleProps))) /\
  maxLaps (startedSession singleProps) <= 3.
Proof.
  assert (H : In (OnGameEnd {| time := (0 / 1000)%R; laps := 3;
                               position := 1 |})
                (snd (overlaps singleProps
                        [0; 1; 2; 3; 4; 0; 1; 2; 3; 4; 0; 1; 2; 3; 4]
                        (startedSession singleProps)))).
  { vm_compute. right. right. right. right. left. reflexivity. }
  split; [exact H |].
  exact (proj1 (every_result_has_reached_the_lap_target singleProps
                  [0; 1; 2; 3; 4; 0; 1; 2; 3; 4; 0; 1; 2; 3; 4]
                  (startedSession singleProps) _ H)).
Defined.

(** ** The life of a scene *)

Lemma run_cons (WrapAngle : R -> R) (AngleBetween : R -> R -> R -> R -> R)
  (props : GameCanvasProps) (a : Action) (rest : list Action) (s : Session) :
  run WrapAngle AngleBetween props (a :: rest) s
  = (fst (run WrapAngle AngleBetween props rest
            (fst (step WrapAngle AngleBetween props a s))),
     snd (step WrapAngle AngleBetween props a s)
     ++ snd (run WrapAngle AngleBetween props rest
               (fst (step WrapAngle AngleBetween props a s)))).
Proof.
  cbn [run]. destruct (step WrapAngle AngleBetween props a s) as [s1 ev1].
  cbn [fst snd]. destruct (run WrapAngle AngleBetween props rest s1).
  reflexivity.
Qed.

Lemma array_get_in_range {A : Type} (a : list A) (i : Z) :
  0 <= i < Z.of_nat (List.length a) -> array_get a i <> None.
Proof.
  intro H. unfold array_get.
  destruct (Z.ltb_spec i 0); [lia |].
  apply nth_error_Some. lia.
Qed.

Lemma update_keeps_destroyedCars
  (WrapAngle : R -> R) (AngleBetween : R -> R -> R -> R -> R)
  (props : GameCanvasProps) (cursors : CursorKeys) (connected : bool)
  (delta : R) (s : Session) :
  destroyedCars
    (outcome_session
       (update WrapAngle AngleBetween props cursors connected delta s))
  = destroyedCars s.
Proof.
  unfold update.
  destruct (negb (raceStarted s) || isPaused s); [reflexivity |].
  cbn [player set_raceTime].
  destruct (player s); [| reflexivity].
  destruct (gameMode props); [| reflexivity].
  destruct (aiCars_forEach _ _ _ _ _ _) as [cars thrown].
  destruct thrown; reflexivity.
Qed.

Lemma checkpointOverlap_destroyedCars (props : GameCanvasProps) (index : Z)
  (s : Session) :
  destroyedCars (fst (checkpointOverlap props index s)) = destroyedCars s.
Proof.
  unfold checkpointOverlap.
  destruct (index =? currentCheckpoint s); [| reflexivity].
  cbn.
  destruct (Z.rem (currentCheckpoint s + 1) (checkpoints_length s) =? 0);
    [| reflexivity].
  destruct (lapCount s + 1 >=? maxLaps s); reflexivity.
Qed.

Lemma wellFormed_update_returns
  (WrapAngle : R -> R) (AngleBetween : R -> R -> R -> R -> R)
  (props : GameCanvasProps) (cursors : CursorKeys) (connected : bool)
  (delta : R) (s : Session) :
  wellFormed s ->
  threw (update WrapAngle AngleBetween props cursors connected delta s)
  = false.
Proof.
  intros (Hp & Hc & _ & Hlive). unfold update.
  destruct (negb (raceStarted s) || isPaused s); [reflexivity |].
  cbn [player set_raceTime].
  destruct (player s) as [p |]; [| contradiction].
  destruct (gameMode props); [| reflexivity].
  cbn [aiCars checkpoints currentCheckpoint destroyedCars set_player
       set_raceTime].
  pose proof (array_get_in_range (checkpoints s) (currentCheckpoint s) Hc)
    as Hget.
  destruct (array_get (checkpoints s) (currentCheckpoint s)) as [t |];
    [| contradiction].
  rewrite Hlive.
  destruct (aiCars_forEach_target WrapAngle AngleBetween O t (aiCars s) 0
              (Nat.le_refl 0)) as (cars' & -> & _).
  reflexivity.
Qed.

Lemma step_wellFormed
  (WrapAngle : R -> R) (AngleBetween : R -> R -> R -> R -> R)
  (props : GameCanvasProps) (a : Action) (s : Session) :
  wellFormed s ->
  wellFormed (fst (step WrapAngle AngleBetween props a s)) /\
  checkpoints (fst (step WrapAngle AngleBetween props a s)) = checkpoints s /\
  maxLaps (fst (step WrapAngle AngleBetween props a s)) = maxLaps s /\
  lapCount s <= lapCount (fst (step WrapAngle AngleBetween props a s)).
Proof.
  intros (Hp & Hc & Hl & Hlive). unfold wellFormed, checkpoints_length in *.
  destruct a as [f | index | |]; cbn [step fst].
  - destruct (update_keeps_progress WrapAngle AngleBetween props
                (frame_cursors f) (frame_connected f) (frame_delta f) s)
      as (H1 & H2 & H3 & _ & _ & _ & H7).
    destruct (update_keeps_places WrapAngle AngleBetween props
                (frame_cursors f) (frame_connected f) (frame_delta f) s)
      as (Hpl & _).
    rewrite H1, H2, H3, H7, update_keeps_destroyedCars.
    repeat split; try assumption; try lia.
    intro Hnone. rewrite Hnone in Hpl.
    destruct (player s); [exact Hpl | now apply Hp].
  - destruct (checkpointOverlap_progress props index s Hc)
      as (Hc' & Hmono & _).
    destruct (checkpointOverlap_frame props index s)
      as (Hcp & Hml & _ & Hpl & _).
    unfold checkpoints_length in Hc'.
    rewrite Hcp, Hml, Hpl, checkpointOverlap_destroyedCars.
    repeat split; try assumption; lia.
  - cbn. repeat split; try assumption; lia.
  - cbn. repeat split; try assumption; lia.
Qed.

(** X9.  A scene that has not been restarted keeps its session well
    formed.  From a session with a player car, the expected index in
    range, a lap count that is not negative and no destroyed car among
    the AI cars, as the first [create] leaves it, any sequence of ticks,
    checkpoint overlaps in any order, presses of the pause button and
    firings of the countdown timer ends in such a session again, with the
    same checkpoints and lap target and a lap count that has not gone
    down; and the next call of [update] returns rather than throws.  Since
    this holds after every prefix of the sequence, no tick in it
    throws. *)
Theorem a_scene_stays_well_formed_and_never_throws
  (WrapAngle : R -> R) (AngleBetween : R -> R -> R -> R -> R)
  (props : GameCanvasProps) (actions : list Action) (s : Session) :
  wellFormed s ->
  let s' := fst (run WrapAngle AngleBetween props actions s) in
  wellFormed s' /\
  checkpoints s' = checkpoints s /\
  maxLaps s' = maxLaps s /\
  lapCount s <= lapCount s' /\
  forall (cursors : CursorKeys) (connected : bool) (delta : R),
    threw (update WrapAngle AngleBetween props cursors connected delta s')
    = false.
Proof.
  intro Hwf. cbv zeta.
  assert (H : wellFormed (fst (run WrapAngle AngleBetween props actions s))
              /\ checkpoints (fst (run WrapAngle AngleBetween props actions s))
                 = checkpoints s
              /\ maxLaps (fst (run WrapAngle AngleBetween props actions s))
                 = maxLaps s
              /\ lapCount s
                 <= lapCount (fst (run WrapAngle AngleBetween props actions s))).
  { revert s Hwf. induction actions as [| a rest IH]; intros s Hwf.
    - cbn. repeat split; try apply Hwf; lia.
    - rewrite run_cons. cbn [fst].
      destruct (step_wellFormed WrapAngle AngleBetween props a s Hwf)
        as (Hwf1 & Hcp1 & Hml1 & Hlap1).
      destruct (IH _ Hwf1) as (Hwf' & Hcp' & Hml' & Hlap').
      rewrite Hcp', Hml', Hcp1, Hml1. repeat split; try apply Hwf'; lia. }
  destruct H as (Hwf' & Hcp & Hml & Hlap).
  repeat split; try apply Hwf'; try assumption.
  intros cursors connected delta. now apply wellFormed_update_returns.
Qed.

Lemma a_scene_stays_well_formed_witness :
  wellFormed (createdSession singleProps) /\
  threw
    (update principalAngle angleBetween singleProps leftKey false 16
       (fst (run principalAngle angleBetween singleProps
               [CountdownElapsed; Tick (frame upKey 16); Overlap 0;
                Overlap 3; PauseButton; Tick (frame leftKey 16);
                PauseButton; Overlap 1]
               (createdSession singleProps))))
  = false.
Proof.
  assert (H : wellFormed (createdSession singleProps)).
  { split; [discriminate |]. split; [cbn; lia | cbn; lia]. }
  split; [exact H |].
  destruct (a_scene_stays_well_formed_and_never_throws
              principalAngle angleBetween singleProps
              [CountdownElapsed; Tick (frame upKey 16); Overlap 0;
               Overlap 3; PauseButton; Tick (frame leftKey 16);
               PauseButton; Overlap 1]
              (createdSession singleProps) H)
    as (_ & _ & _ & _ & Hret).
  exact (Hret leftKey false 16%R).
Defined.

Lemma checkpointOverlap_not_started (props : GameCanvasProps) (index : Z)
  (s : Session) :
  raceStarted s = false ->
  raceStarted (fst (checkpointOverlap props index s)) = false.
Proof.
  intro H. unfold checkpointOverlap.
  destruct (index =? currentCheckpoint s); [| exact H].
  cbn.
  destruct (Z.rem (currentCheckpoint s + 1) (checkpoints_length s) =? 0);
    [| exact H].
  destruct (lapCount s + 1 >=? maxLaps s); [reflexivity | exact H].
Qed.

(** X10.  Only the countdown timer starts a race.  In a session whose
    race is not started, before the countdown or after the finish, no
    sequence of ticks, checkpoint overlaps and presses of the pause button
    sets [raceStarted]; through all of it the clock, the player car and
    the AI cars stay exactly as they were. *)
Theorem only_the_countdown_starts_the_race
  (WrapAngle : R -> R) (AngleBetween : R -> R -> R -> R -> R)
  (props : GameCanvasProps) (actions : list Action) (s : Session) :
  forallb (fun a => negb (isCountdown a)) actions = true ->
  raceStarted s = false ->
  let s' := fst (run WrapAngle AngleBetween props actions s) in
  raceStarted s' = false /\
  raceTime s' = raceTime s /\
  player s' = player s /\
  aiCars s' = aiCars s.
Proof.
  revert s. induction actions as [| a rest IH]; intros s Hno Hrs;
    cbv zeta.
  - cbn. now repeat split.
  - cbn [forallb] in Hno. apply andb_prop in Hno. destruct Hno as (Ha & Hno).
    rewrite run_cons. cbn [fst].
    assert (H1 : raceStarted (fst (step WrapAngle AngleBetween props a s))
                 = false /\
                 raceTime (fst (step WrapAngle AngleBetween props a s))
                 = raceTime s /\
                 player (fst (step WrapAngle AngleBetween props a s))
                 = player s /\
                 aiCars (fst (step WrapAngle AngleBetween props a s))
                 = aiCars s).
    { destruct a as [f | index | |]; cbn [step fst].
      - rewrite update_not_started by exact Hrs. now repeat split.
      - destruct (checkpointOverlap_frame props index s)
          as (_ & _ & Ht & Hpl & Hai & _).
        split; [now apply checkpointOverlap_not_started |].
        now repeat split.
      - now repeat split.
      - discriminate Ha. }
    destruct H1 as (Hrs1 & Ht1 & Hpl1 & Hai1).
    destruct (IH _ Hno Hrs1) as (Hrs' & Ht' & Hpl' & Hai').
    cbv zeta in *. rewrite Hrs', Ht', Hpl', Hai', Ht1, Hpl1, Hai1.
    now repeat split.
Qed.

Lemma only_the_countdown_witness :
  forallb (fun a => negb (isCountdown a))
    [Tick (frame upKey 16); Overlap 0; PauseButton; Tick (frame leftKey 16)]
  = true /\
  raceStarted (createdSession multiplayerProps) = false /\
  raceStarted
    (fst (run principalAngle angleBetween multiplayerProps
            [Tick (frame upKey 16); Overlap 0; PauseButton;
             Tick (frame leftKey 16)]
            (createdSession multiplayerProps)))
  = false.
Proof.
  assert (H1 : forallb (fun a => negb (isCountdown a))
                 [Tick (frame upKey 16); Overlap 0; PauseButton;
                  Tick (frame leftKey 16)] = true) by reflexivity.
  assert (H2 : raceStarted (createdSession multiplayerProps) = false)
    by reflexivity.
  split; [exact H1 |]. split; [exact H2 |].
  exact (proj1 (only_the_countdown_starts_the_race
                  principalAngle angleBetween multiplayerProps
                  [Tick (frame upKey 16); Overlap 0; PauseButton;
                   Tick (frame leftKey 16)]
                  (createdSession multiplayerProps) H1 H2)).
Defined.

(** ** Restart and [create] *)

(** X11.  A click on the restart button never empties the arrays and
    resets nothing in the scene.  The engine shuts the scene down and runs
    [create] again on the session of the scene's callbacks, which then
    has the old checkpoints followed by five new ones and, in single mode,
    the old AI cars, all destroyed, followed by three new ones; the
    expected index, the lap count, [raceStarted], [raceTime] and the lap
    target of that session stay as they were.  The four resets of
    [handleRestart] go to the variables of the render that the button
    belongs to. *)
Theorem restart_piles_up_and_resets_nothing_in_the_scene
  (props : GameCanvasProps) (c : Component) :
  let c' := fst (clickRestart props c) in
  checkpoints (engine c')
  = checkpoints (engine c)
    ++ map (fun pos => add_rectangle (fst pos) (snd pos)) checkpointPositions /\
  checkpoints_length (engine c') = checkpoints_length (engine c) + 5 /\
  (exists aiCars' : list Rectangle,
      aiCars (engine c') = aiCars (engine c) ++ aiCars' /\
      List.length aiCars'
      = match gameMode props with single => 3%nat | multiplayer => O end) /\
  destroyedCars (engine c') = List.length (aiCars (engine c)) /\
  (currentCheckpoint (engine c') = currentCheckpoint (engine c) /\
   lapCount (engine c') = lapCount (engine c) /\
   raceStarted (engine c') = raceStarted (engine c) /\
   raceTime (engine c') = raceTime (engine c) /\
   maxLaps (engine c') = maxLaps (engine c)) /\
  (currentCheckpoint (latest c') = 0 /\
   lapCount (latest c') = 0 /\
   raceStarted (latest c') = false /\
   raceTime (latest c') = 0%R) /\
  snd (clickRestart props c)
  = [SceneRestart; SetIsPaused false; SetGameLoaded true; SetTimeout 3000].
Proof.
  cbv zeta. unfold clickRestart, handleRestart, handleRestartIf.
  cbn [app fst snd].
  assert (Hlatest :
    forall calls s,
      currentCheckpoint s = 0 -> lapCount s = 0 ->
      raceStarted s = false -> raceTime s = 0%R ->
      currentCheckpoint (afterCalls calls s) = 0 /\
      lapCount (afterCalls calls s) = 0 /\
      raceStarted (afterCalls calls s) = false /\
      raceTime (afterCalls calls s) = 0%R).
  { intros calls s H1 H2 H3 H4. unfold afterCalls.
    destruct (_ && _); [now repeat split | now repeat split]. }
  destruct props as [mode cb]. destruct mode.
  - split; [reflexivity |].
    split; [unfold checkpoints_length; cbn; rewrite length_app; cbn; lia |].
    split; [eexists; split; reflexivity |].
    split; [reflexivity |].
    split; [now repeat split |].
    split; [apply Hlatest; reflexivity | reflexivity].
  - split; [reflexivity |].
    split; [unfold checkpoints_length; cbn; rewrite length_app; cbn; lia |].
    split; [exists []; split; [cbn; now rewrite app_nil_r | reflexivity] |].
    split; [reflexivity |].
    split; [now repeat split |].
    split; [apply Hlatest; reflexivity | reflexivity].
Qed.

(** ** Keys held together *)

(** X12.  With the left and the right key both held, the two turns of a
    tick undo each other: whatever the engine's normalisation of angles,
    as long as it keeps the direction of an angle, the car points after
    the tick where it pointed before it. *)
Theorem left_and_right_together_keep_the_direction
  (WrapAngle : R -> R) (cursors : CursorKeys) (p : Rectangle) :
  (forall a : R, cos (WrapAngle a) = cos a) ->
  (forall a : R, sin (WrapAngle a) = sin a) ->
  left_isDown cursors = true ->
  right_isDown cursors = true ->
  cos (rotation (playerControls WrapAngle cursors p)) = cos (rotation p) /\
  sin (rotation (playerControls WrapAngle cursors p)) = sin (rotation p).
Proof.
  intros Hcos Hsin Hl Hr.
  assert (Hrot : rotation (playerControls WrapAngle cursors p)
                 = WrapAngle (WrapAngle (rotation p - 1 / 10) + 1 / 10)%R).
  { unfold playerControls. rewrite Hl, Hr.
    destruct (up_isDown cursors), (down_isDown cursors); reflexivity. }
  rewrite Hrot, Hcos, Hsin, cos_plus, sin_plus, Hcos, Hsin.
  rewrite <- cos_plus, <- sin_plus.
  split; f_equal; lra.
Qed.

Lemma left_and_right_witness :
  (forall a : R, cos (principalAngle a) = cos a) /\
  (forall a : R, sin (principalAngle a) = sin a) /\
  left_isDown {| left_isDown := true; right_isDown := true;
                 up_isDown := true; down_isDown := false |} = true /\
  right_isDown {| left_isDown := true; right_isDown := true;
                  up_isDown := true; down_isDown := false |} = true /\
  cos (rotation
         (playerControls principalAngle
            {| left_isDown := true; right_isDown := true;
               up_isDown := true; down_isDown := false |}
            (add_rectangle 120 150)))
  = cos (rotation (add_rectangle 120 150)).
Proof.
  assert (H1 : forall a : R, cos (principalAngle a) = cos a)
    by (intro a; reflexivity).
  assert (H2 : forall a : R, sin (principalAngle a) = sin a)
    by (intro a; reflexivity).
  split; [exact H1 |]. split; [exact H2 |].
  split; [reflexivity |]. split; [reflexivity |].
  exact (proj1 (left_and_right_together_keep_the_direction principalAngle
                  {| left_isDown := true; right_isDown := true;
                     up_isDown := true; down_isDown := false |}
                  (add_rectangle 120 150) H1 H2 eq_refl eq_refl)).
Defined.

(** ** The AI cars' speed and their maximum velocity *)

(** X13.  [create] gives each AI car a maximum velocity of 250, and
    [update] gives the car at [index] the speed [200 + 20 * index]: that
    speed is within the car's maximum velocity exactly for the indexes 0,
    1 and 2, those of the three cars of one [create]; a car further down
    the list is given more than its maximum. *)
Theorem ai_speed_is_within_the_maximum_up_to_index_2
  (WrapAngle : R -> R) (AngleBetween : R -> R -> R -> R -> R)
  (target aiCar : Rectangle) (index : nat) :
  body_maxVelocity aiCar = 250%R ->
  (speed (aiMove WrapAngle AngleBetween target index aiCar)
   <= body_maxVelocity (aiMove WrapAngle AngleBetween target index aiCar))%R
  <-> (index <= 2)%nat.
Proof.
  intro Hmax.
  destruct (aiMove_spec WrapAngle AngleBetween target index aiCar)
    as (_ & _ & _ & _ & _ & Hsp).
  rewrite Hsp.
  replace (body_maxVelocity (aiMove WrapAngle AngleBetween target index aiCar))
    with 250%R by (rewrite <- Hmax; reflexivity).
  split.
  - intro Hle.
    destruct (Nat.le_gt_cases index 2) as [H | H]; [exact H |].
    apply le_INR in H. cbn [INR] in H. lra.
  - intro H. apply le_INR in H. cbn [INR] in H. lra.
Qed.

Lemma ai_speed_witness :
  body_maxVelocity
    (setMaxVelocity 250 (setDrag 80 (add_rectangle 120 (180 + INR 2 * 30))))
  = 250%R /\
  (speed
     (aiMove principalAngle angleBetween (add_rectangle 600 100) 2
        (setMaxVelocity 250
           (setDrag 80 (add_rectangle 120 (180 + INR 2 * 30)))))
   <= body_maxVelocity
        (aiMove principalAngle angleBetween (add_rectangle 600 100) 2
           (setMaxVelocity 250
              (setDrag 80 (add_rectangle 120 (180 + INR 2 * 30))))))%R.
Proof.
  assert (H : body_maxVelocity
                (setMaxVelocity 250
                   (setDrag 80 (add_rectangle 120 (180 + INR 2 * 30))))
              = 250%R) by reflexivity.
  split; [exact H |].
  apply (proj2 (ai_speed_is_within_the_maximum_up_to_index_2
                  principalAngle angleBetween (add_rectangle 600 100)
                  _ 2 H)).
  lia.
Defined.

(** ** What the ticks send *)

Lemma update_events_single
  (WrapAngle : R -> R) (AngleBetween : R -> R -> R -> R -> R)
  (cb : bool) (cursors : CursorKeys) (connected : bool) (delta : R)
  (s : Session) :
  outcome_events
    (update WrapAngle AngleBetween {| gameMode := single; onGameEnd := cb |}
       cursors connected delta s)
  = [].
Proof.
  unfold update.
  destruct (negb (raceStarted s) || isPaused s); [reflexivity |].
  cbn [player set_raceTime gameMode].
  destruct (player s); [| reflexivity].
  destruct (aiCars_forEach _ _ _ _ _ _) as [cars thrown].
  destruct thrown; reflexivity.
Qed.

Lemma update_multiplayer
  (WrapAngle : R -> R) (AngleBetween : R -> R -> R -> R -> R)
  (cb : bool) (cursors : CursorKeys) (connected : bool) (delta : R)
  (s : Session) :
  let o :=
    update WrapAngle AngleBetween
      {| gameMode := multiplayer; onGameEnd := cb |}
      cursors connected delta s in
  (match player (outcome_session o) with Some _ => true | None => false end
   = match player s with Some _ => true | None => false end) /\
  ((raceStarted s && negb (isPaused s)
    && match player s with Some _ => true | None => false end
    && connected = true /\
    exists m : PlayerPosition,
      outcome_events o = [SocketSendPlayerPosition "current-race" m]) \/
   (raceStarted s && negb (isPaused s)
    && match player s with Some _ => true | None => false end
    && connected = false /\
    outcome_events o = [])).
Proof.
  cbv zeta. unfold update.
  destruct (raceStarted s), (isPaused s); cbn [negb orb andb];
    try (split; [reflexivity | right; now split]).
  cbn [player set_raceTime gameMode].
  destruct (player s) as [p |] eqn:Ep; cbn [outcome_session outcome_events].
  - split; [reflexivity |].
    destruct connected; [left | right]; split; try reflexivity.
    now eexists.
  - split; [cbn; now rewrite Ep | right; now split].
Qed.

(** X14.  In single mode no call of [update] emits anything: the ticks
    never reach the socket.  In multiplayer mode the ticks emit position
    messages for the race ['current-race'] and nothing else, one for each
    frame that finds the socket connected, provided the race is started
    and not paused and there is a player car; otherwise they emit
    nothing. *)
Theorem ticks_send_one_position_per_connected_frame
  (WrapAngle : R -> R) (AngleBetween : R -> R -> R -> R -> R)
  (cb : bool) (frames : list Frame) (s : Session) :
  snd (ticks WrapAngle AngleBetween
         {| gameMode := single; onGameEnd := cb |} frames s) = [] /\
  List.length
    (snd (ticks WrapAngle AngleBetween
            {| gameMode := multiplayer; onGameEnd := cb |} frames s))
  = (if raceStarted s && negb (isPaused s)
        && match player s with Some _ => true | None => false end
     then List.length (filter frame_connected frames) else 0%nat) /\
  forall e : Event,
    In e (snd (ticks WrapAngle AngleBetween
                 {| gameMode := multiplayer; onGameEnd := cb |} frames s)) ->
    exists m : PlayerPosition,
      e = SocketSendPlayerPosition "current-race" m.
Proof.
  split; [| split].
  - revert s. induction frames as [| f rest IH]; intro s; [reflexivity |].
    rewrite ticks_cons. cbn [snd]. now rewrite update_events_single, IH.
  - revert s. induction frames as [| f rest IH]; intro s.
    + cbn. now destruct (_ && _).
    + rewrite ticks_cons. cbn [snd filter]. rewrite length_app, IH.
      destruct (update_keeps_progress WrapAngle AngleBetween
                  {| gameMode := multiplayer; onGameEnd := cb |}
                  (frame_cursors f) (frame_connected f) (frame_delta f) s)
        as (_ & _ & _ & Hrs & Hp & _).
      destruct (update_multiplayer WrapAngle AngleBetween cb
                  (frame_cursors f) (frame_connected f) (frame_delta f) s)
        as (Hpl & [(Hc & m & Hev) | (Hc & Hev)]);
        cbv zeta in *; rewrite Hrs, Hp, Hpl, Hev.
      * apply andb_prop in Hc. destruct Hc as (Hc1 & Hc2).
        rewrite Hc1, Hc2. reflexivity.
      * destruct (raceStarted s && negb (isPaused s)
                  && match player s with Some _ => true | None => false end)
          eqn:E; [| reflexivity].
        cbn [andb] in Hc. rewrite Hc. reflexivity.
  - revert s. induction frames as [| f rest IH]; intros s e Hin;
      [destruct Hin |].
    rewrite ticks_cons in Hin. cbn [snd] in Hin.
    apply in_app_or in Hin. destruct Hin as [Hin | Hin]; [| eauto].
    destruct (update_multiplayer WrapAngle AngleBetween cb
                (frame_cursors f) (frame_connected f) (frame_delta f) s)
      as (_ & [(_ & m & Hev) | (_ & Hev)]);
      cbv zeta in *; rewrite Hev in Hin.
    + destruct Hin as [<- | []]. now exists m.
    + destruct Hin.
Qed.

(** * Further properties of the leaderboard *)

(** ** How the sort reads a comparator *)

Lemma positive_Finite (r : R) : positive (Finite r) = true <-> (0 < r)%R.
Proof.
  cbn. destruct (Rlt_dec 0 r); split; intro H;
    try reflexivity; try assumption; try discriminate; contradiction.
Qed.

Lemma positive_Finite_false (r : R) :
  positive (Finite r) = false <-> (r <= 0)%R.
Proof.
  cbn. destruct (Rlt_dec 0 r); split; intro H;
    try reflexivity; try discriminate; lra.
Qed.

Lemma negative_Finite (r : R) : negative (Finite r) = true <-> (r < 0)%R.
Proof.
  cbn. destruct (Rlt_dec r 0); split; intro H;
    try reflexivity; try assumption; try discriminate; contradiction.
Qed.

Lemma positive_negative_Finite (x y : R) :
  positive (Finite (x - y)) = negative (Finite (y - x)).
Proof.
  cbn. destruct (Rlt_dec 0 (x - y)), (Rlt_dec (y - x) 0);
    try reflexivity; lra.
Qed.

Lemma winRate_some (a : Player) : exists rate : R, winRate a = Some rate.
Proof.
  unfold winRate, divide.
  destruct (total_races a >? 0) eqn:G; [| now eexists].
  destruct (Z.eqb_spec (total_races a) 0) as [E | E]; [| now eexists].
  rewrite E in G. discriminate.
Qed.

Lemma tabComparator_cases (selectedTab : string)
  (comparefn : Player -> Player -> Number) :
  tabComparator selectedTab = Some comparefn ->
  (selectedTab = "overall"%string /\
   comparefn = fun a b =>
     Number_minus (orInfinity (best_time a)) (orInfinity (best_time b))) \/
  (selectedTab = "wins"%string /\
   comparefn = fun a b => Finite (IZR (wins b - wins a))) \/
  (selectedTab = "races"%string /\
   comparefn = fun a b => Finite (IZR (total_races b - total_races a))) \/
  (selectedTab = "winrate"%string /\
   comparefn = fun a b =>
     match compareWinRate a b with
     | Some diff => Finite diff
     | None => NaN
     end).
Proof.
  unfold tabComparator. intro H.
  destruct (String.eqb_spec selectedTab "overall");
    [injection H as <-; now left |].
  destruct (String.eqb_spec selectedTab "wins");
    [injection H as <-; right; now left |].
  destruct (String.eqb_spec selectedTab "races");
    [injection H as <-; right; right; now left |].
  destruct (String.eqb_spec selectedTab "winrate");
    [injection H as <-; right; right; now right | discriminate].
Qed.

Lemma overall_reading (a b : Player) :
  positive (Number_minus (orInfinity (best_time a))
              (orInfinity (best_time b)))
  = negative (Number_minus (orInfinity (best_time b))
                (orInfinity (best_time a))) /\
  (positive (Number_minus (orInfinity (best_time a))
               (orInfinity (best_time b))) = false
   <-> rankedBefore "overall" a b).
Proof.
  change (rankedBefore "overall" a b)
    with (best_time b = 0%R \/
          (best_time a <> 0%R /\ (best_time a <= best_time b)%R)).
  unfold orInfinity.
  destruct (Req_dec_T (best_time a) 0) as [Ea | Ea],
           (Req_dec_T (best_time b) 0) as [Eb | Eb];
    cbn [Number_minus].
  - cbn. split; [reflexivity |]. split; [now left | reflexivity].
  - cbn. split; [reflexivity |]. split; [discriminate |].
    intros [H | (H & _)]; contradiction.
  - cbn. split; [reflexivity |]. split; [now left | reflexivity].
  - split; [apply positive_negative_Finite |].
    rewrite positive_Finite_false. split.
    + intro H. right. split; [exact Ea | lra].
    + intros [H | (_ & H)]; [contradiction | lra].
Qed.

Lemma integer_reading (x y : Z) :
  positive (Finite (IZR (y - x))) = negative (Finite (IZR (x - y))) /\
  (positive (Finite (IZR (y - x))) = false <-> y <= x).
Proof.
  split.
  - rewrite !minus_IZR. apply positive_negative_Finite.
  - rewrite positive_Finite_false. split; intro H.
    + apply le_IZR in H. lia.
    + apply IZR_le. lia.
Qed.

Lemma winrate_reading (a b : Player) :
  positive (match compareWinRate a b with
            | Some diff => Finite diff
            | None => NaN
            end)
  = negative (match compareWinRate b a with
              | Some diff => Finite diff
              | None => NaN
              end) /\
  (positive (match compareWinRate a b with
             | Some diff => Finite diff
             | None => NaN
             end) = false
   <-> rankedBefore "winrate" a b).
Proof.
  change (rankedBefore "winrate" a b)
    with (match winRate a, winRate b with
          | Some rateA, Some rateB => (rateB <= rateA)%R
          | _, _ => False
          end).
  unfold compareWinRate.
  destruct (winRate_some a) as (ra & ->), (winRate_some b) as (rb & ->).
  split; [apply positive_negative_Finite |].
  rewrite positive_Finite_false. split; intro H; lra.
Qed.

Lemma rankedBefore_trans (selectedTab : string) (a b c : Player) :
  rankedBefore selectedTab a b -> rankedBefore selectedTab b c ->
  rankedBefore selectedTab a c.
Proof.
  unfold rankedBefore.
  destruct (String.eqb selectedTab "overall").
  - intros [Hb | (Ha & Hab)] [Hc | (Hb' & Hbc)];
      try (now left); try contradiction.
    right. split; [exact Ha | lra].
  - destruct (String.eqb selectedTab "wins"); [lia |].
    destruct (String.eqb selectedTab "races"); [lia |].
    destruct (String.eqb selectedTab "winrate"); [| trivial].
    destruct (winRate a), (winRate b), (winRate c); try tauto. lra.
Qed.

(** X15.  Each comparator of [fetchLeaderboard] is a consistent
    comparator for the sort.  For every tab that has one: it says that [a]
    goes after [b] exactly when it says that [b] goes before [a]; it puts
    no player after itself; if [a] need not go after [b] nor [b] after [c]
    then [a] need not go after [c]; and [a] need not go after [b] exactly
    in the order of the tab: a smaller best time first with the players
    without a best time last, or more wins, more races, a higher win rate
    first. *)
Theorem tab_comparators_are_consistent
  (selectedTab : string) (comparefn : Player -> Player -> Number) :
  tabComparator selectedTab = Some comparefn ->
  (forall a b : Player,
      positive (comparefn a b) = negative (comparefn b a)) /\
  (forall a : Player, positive (comparefn a a) = false) /\
  (forall a b : Player,
      positive (comparefn a b) = false <-> rankedBefore selectedTab a b) /\
  (forall a b c : Player,
      positive (comparefn a b) = false ->
      positive (comparefn b c) = false ->
      positive (comparefn a c) = false).
Proof.
  intro Htab.
  assert (Hread : forall a b : Player,
             positive (comparefn a b) = negative (comparefn b a) /\
             (positive (comparefn a b) = false
              <-> rankedBefore selectedTab a b)).
  { intros a b.
    destruct (tabComparator_cases selectedTab comparefn Htab)
      as [(-> & ->) | [(-> & ->) | [(-> & ->) | (-> & ->)]]].
    - apply overall_reading.
    - apply (integer_reading (wins a) (wins b)).
    - apply (integer_reading (total_races a) (total_races b)).
    - apply winrate_reading. }
  assert (Hrefl : forall a : Player, positive (comparefn a a) = false).
  { intro a.
    destruct (positive (comparefn a a)) eqn:E; [| reflexivity].
    destruct (Hread a a) as (Hanti & _). rewrite E in Hanti.
    destruct (comparefn a a) as [r | | |]; cbn in E, Hanti;
      try discriminate.
    destruct (Rlt_dec 0 r), (Rlt_dec r 0); try discriminate; lra. }
  split; [intros a b; apply Hread |].
  split; [exact Hrefl |].
  split; [intros a b; apply Hread |].
  intros a b c Hab Hbc.
  apply (proj2 (Hread a c)).
  apply (rankedBefore_trans selectedTab a b c);
    [apply (proj2 (Hread a b)) | apply (proj2 (Hread b c))]; assumption.
Qed.

Lemma tab_comparators_witness :
  tabComparator "overall"
  = Some (fun a b =>
            Number_minus (orInfinity (best_time a))
              (orInfinity (best_time b))) /\
  positive
    (Number_minus
       (orInfinity (best_time {| total_races := 4; wins := 1;
                                 best_time := 0%R |}))
       (orInfinity (best_time {| total_races := 4; wins := 1;
                                 best_time := 0%R |})))
  = false.
Proof.
  assert (H : tabComparator "overall"
              = Some (fun a b =>
                        Number_minus (orInfinity (best_time a))
                          (orInfinity (best_time b)))) by reflexivity.
  split; [exact H |].
  exact (proj1 (proj2 (tab_comparators_are_consistent "overall" _ H))
           {| total_races := 4; wins := 1; best_time := 0%R |}).
Defined.

(** ** The sort *)

Section SortWith.

Context {A : Type}.
Variable comparefn : A -> A -> Number.

Lemma sort_insert_perm (x : A) (l : list A) :
  Permutation (x :: l) (sort_insert comparefn x l).
Proof.
  induction l as [| y rest IH]; cbn [sort_insert]; [reflexivity |].
  destruct (positive (comparefn x y)); [| reflexivity].
  rewrite perm_swap. now apply perm_skip.
Qed.

Lemma Array_sort_perm (l : list A) : Permutation l (Array_sort comparefn l).
Proof.
  induction l as [| x rest IH]; cbn [Array_sort]; [reflexivity |].
  rewrite <- sort_insert_perm. now apply perm_skip.
Qed.

Variable before : A -> A -> Prop.
Hypothesis before_reading :
  forall a b : A, positive (comparefn a b) = false <-> before a b.
Hypothesis before_total : forall a b : A, before a b \/ before b a.
Hypothesis before_trans :
  forall a b c : A, before a b -> before b c -> before a c.

Lemma sort_insert_sorted (x : A) (l : list A) :
  StronglySorted before l ->
  StronglySorted before (sort_insert comparefn x l).
Proof.
  induction l as [| y rest IH]; intro Hs; cbn [sort_insert].
  - constructor; constructor.
  - inversion Hs as [| y' rest' Hrest Hall]; subst.
    destruct (positive (comparefn x y)) eqn:E.
    + constructor; [now apply IH |].
      apply (Permutation_Forall (sort_insert_perm x rest)).
      constructor; [| exact Hall].
      destruct (before_total y x) as [H | H]; [exact H |].
      apply before_reading in H. congruence.
    + apply before_reading in E.
      constructor; [exact Hs |].
      constructor; [exact E |].
      eapply Forall_impl; [| exact Hall].
      intros z Hyz. now apply (before_trans x y z).
Qed.

Lemma Array_sort_sorted (l : list A) :
  StronglySorted before (Array_sort comparefn l).
Proof.
  induction l as [| x rest IH]; cbn [Array_sort]; [constructor |].
  now apply sort_insert_sorted.
Qed.

End SortWith.

Lemma tabComparator_reading (selectedTab : string)
  (comparefn : Player -> Player -> Number) (a b : Player) :
  tabComparator selectedTab = Some comparefn ->
  positive (comparefn a b) = false <-> rankedBefore selectedTab a b.
Proof.
  intro Htab.
  destruct (tabComparator_cases selectedTab comparefn Htab)
    as [(-> & ->) | [(-> & ->) | [(-> & ->) | (-> & ->)]]].
  - apply overall_reading.
  - apply (integer_reading (wins a) (wins b)).
  - apply (integer_reading (total_races a) (total_races b)).
  - apply winrate_reading.
Qed.

Lemma rankedBefore_total (selectedTab : string) (a b : Player) :
  rankedBefore selectedTab a b \/ rankedBefore selectedTab b a.
Proof.
  unfold rankedBefore.
  destruct (String.eqb selectedTab "overall").
  - destruct (Req_dec_T (best_time a) 0) as [Ea | Ea];
      [right; now left |].
    destruct (Req_dec_T (best_time b) 0) as [Eb | Eb];
      [left; now left |].
    destruct (Rle_dec (best_time a) (best_time b));
      [left | right]; right; split; try assumption; lra.
  - destruct (String.eqb selectedTab "wins"); [lia |].
    destruct (String.eqb selectedTab "races"); [lia |].
    destruct (String.eqb selectedTab "winrate"); [| now left].
    destruct (winRate_some a) as (ra & ->), (winRate_some b) as (rb & ->).
    lra.
Qed.

(** X16.  When [getLeaderboard] resolves without an error,
    [fetchLeaderboard] shows exactly the players it was given, none lost
    and none twice, in the order of the selected tab: by best time with
    the players without one last, by wins, by races or by win rate, each
    from the best down; for a tab without a case in the [switch] it keeps
    the order as given, and for [data] of [null] it shows no player.  When
    the promise is rejected or the response carries an error, the list
    shown stays as it was.  On every path [loading] ends cleared and the
    tab is kept. *)
Theorem fetchLeaderboard_shows_the_data_in_tab_order
  (st : LeaderboardState) (data : option (list Player)) :
  let given := match data with Some d => d | None => [] end in
  let st' := fetchLeaderboard (Resolved data false) st in
  Permutation given (topPlayers st') /\
  StronglySorted (rankedBefore (selectedTab st)) (topPlayers st') /\
  match tabComparator (selectedTab st) with
  | Some _ => True
  | None => topPlayers st' = given
  end /\
  loading st' = false /\
  selectedTab st' = selectedTab st /\
  fetchLeaderboard Rejected st
  = {| topPlayers := topPlayers st; loading := false;
       selectedTab := selectedTab st |} /\
  fetchLeaderboard (Resolved data true) st
  = {| topPlayers := topPlayers st; loading := false;
       selectedTab := selectedTab st |}.
Proof.
  cbv zeta. cbn [fetchLeaderboard topPlayers loading selectedTab].
  set (given := match data with Some d => d | None => [] end).
  destruct (tabComparator (selectedTab st)) as [comparefn |] eqn:Htab.
  - split; [apply Array_sort_perm |].
    split; [| now repeat split].
    apply (Array_sort_sorted comparefn (rankedBefore (selectedTab st))).
    + intros a b. now apply tabComparator_reading.
    + apply rankedBefore_total.
    + apply rankedBefore_trans.
  - split; [reflexivity |].
    split; [| now repeat split].
    assert (Htrue : forall a b : Player, rankedBefore (selectedTab st) a b).
    { intros a b. unfold rankedBefore, tabComparator in *.
      destruct (String.eqb (selectedTab st) "overall"); [discriminate |].
      destruct (String.eqb (selectedTab st) "wins"); [discriminate |].
      destruct (String.eqb (selectedTab st) "races"); [discriminate |].
      destruct (String.eqb (selectedTab st) "winrate");
        [discriminate | exact I]. }
    induction given as [| x rest IH]; constructor; [exact IH |].
    apply Forall_forall. intros; apply Htrue.
Qed.

(** ** The rank of a row *)

Lemma getRankIcon_from_4 (position : Z) :
  4 <= position -> getRankIcon position = NumberIcon position.
Proof.
  intro H. destruct position as [| p | p]; try lia.
  destruct p as [[q | q |] | [q | q |] |]; try reflexivity; lia.
Qed.

(** X17.  For the row at [index] of the list, whose position is
    [index + 1], the icon and the badge agree: the first three rows get
    the trophy, the medal and the award and the badge ['default']; the
    rows after them get their number as icon, with the badge
    ['secondary'] up to the tenth row and ['outline'] from the eleventh
    on. *)
Theorem rank_icon_and_badge_agree (index : nat) :
  let position := Z.of_nat index + 1 in
  (getRankBadge position = "default"%string <-> (index < 3)%nat) /\
  (getRankBadge position = "secondary"%string <-> (3 <= index < 10)%nat) /\
  (getRankBadge position = "outline"%string <-> (10 <= index)%nat) /\
  (getRankIcon position <> NumberIcon position <-> (index < 3)%nat) /\
  getRankIcon 1 = TrophyIcon /\
  getRankIcon 2 = MedalIcon /\
  getRankIcon 3 = AwardIcon.
Proof.
  cbv zeta. unfold getRankBadge.
  assert (Hicon : getRankIcon (Z.of_nat index + 1)
                  <> NumberIcon (Z.of_nat index + 1) <-> (index < 3)%nat).
  { destruct (Nat.lt_ge_cases index 3) as [H | H].
    - split; [intros _; exact H |]. intros _.
      destruct index as [| [| [| index]]]; [| | | lia]; discriminate.
    - rewrite getRankIcon_from_4 by lia. split; [congruence | lia]. }
  destruct (Z.leb_spec (Z.of_nat index + 1) 3);
    [| destruct (Z.leb_spec (Z.of_nat index + 1) 10)];
    repeat split; try exact (proj1 Hicon); try exact (proj2 Hicon);
    try discriminate; try reflexivity; try lia.
Qed.

(** * Further properties of the socket manager *)

Lemma emit_without_socket (m : SocketManager) (event : string)
  (payload : Payload) :
  socket m = None -> emit m event payload = [].
Proof. intro H. unfold emit. now rewrite H. Qed.

(** X18.  After [disconnect] the manager has no socket: it reports that
    it is not connected and has no id, and every message handed to it is
    dropped, whether a room or race message of its own methods or a
    position or finish message of a scene.  And while the manager is
    connected, [connect] changes nothing, whatever socket [io] would
    return. *)
Theorem a_disconnected_manager_drops_every_message
  (m : SocketManager) (fresh : Socket) :
  let m' := SocketManager_disconnect m in
  SocketManager_connected m' = false /\
  SocketManager_id m' = None /\
  (forall (event : string) (payload : Payload), emit m' event payload = []) /\
  (forall id : string,
      joinRoom m' id = [] /\ leaveRoom m' id = [] /\
      joinRace m' id = [] /\ startRace m' id = []) /\
  (forall e : Event, onTheSocket m' e = []) /\
  SocketManager_connected
    (SocketManager_connect fresh m') = socket_connected fresh /\
  (if SocketManager_connected m
   then SocketManager_connect fresh m = m
   else socket (SocketManager_connect fresh m) = Some fresh).
Proof.
  cbv zeta.
  split; [reflexivity |]. split; [reflexivity |].
  split; [reflexivity |]. split; [now repeat split |].
  split; [intros [] ; reflexivity |].
  split; [reflexivity |].
  unfold SocketManager_connect.
  destruct (SocketManager_connected m); reflexivity.
Qed.

Lemma listeners_app (before after : list SocketEvent) (m : SocketManager) :
  listeners (before ++ after) m = listeners after (listeners before m).
Proof.
  revert m. induction before as [| e rest IH]; intro m; [reflexivity |].
  cbn [app listeners]. apply IH.
Qed.

Lemma listeners_without_connect (events : list SocketEvent)
  (m : SocketManager) :
  hasConnect events = false ->
  reconnectAttempts (listeners events m)
  = reconnectAttempts m + connectErrors events.
Proof.
  unfold hasConnect, connectErrors.
  revert m. induction events as [| e rest IH]; intros m H.
  - cbn. lia.
  - cbn [existsb] in H. apply orb_false_elim in H. destruct H as (He & H).
    cbn [listeners]. rewrite (IH _ H).
    destruct e; try discriminate He; cbn [listener reconnectAttempts filter];
      try lia.
    cbn [List.length]. lia.
Qed.

Lemma listeners_keep_socket (events : list SocketEvent) (m : SocketManager) :
  socket (listeners events m) = socket m /\
  maxReconnectAttempts (listeners events m) = maxReconnectAttempts m.
Proof.
  revert m. induction events as [| e rest IH]; intro m; [now split |].
  cbn [listeners]. destruct (IH (listener e m)) as (H1 & H2).
  rewrite H1, H2. destruct e; now split.
Qed.

(** X19.  [reconnectAttempts] counts the connection errors since the
    last successful connection: after events that end with a [connect]
    event followed by events without one, it is the number of
    [connect_error] events among the latter; and the listeners never
    touch the socket or [maxReconnectAttempts], which nothing compares
    the count with, so the count can pass it. *)
Theorem reconnectAttempts_counts_errors_since_the_last_connect
  (before after : list SocketEvent) (m : SocketManager) :
  hasConnect after = false ->
  reconnectAttempts (listeners (before ++ on_connect :: after) m)
  = connectErrors after /\
  reconnectAttempts (listeners after m)
  = reconnectAttempts m + connectErrors after /\
  socket (listeners (before ++ on_connect :: after) m) = socket m /\
  maxReconnectAttempts (listeners (before ++ on_connect :: after) m)
  = maxReconnectAttempts m.
Proof.
  intro H.
  split; [| split; [now apply listeners_without_connect
                   | apply listeners_keep_socket]].
  rewrite listeners_app. cbn [listeners].
  rewrite listeners_without_connect by exact H.
  cbn [listener reconnectAttempts]. lia.
Qed.

Lemma reconnectAttempts_witness :
  hasConnect [on_connect_error; on_disconnect; on_connect_error;
              on_connect_error; on_connect_error; on_connect_error;
              on_connect_error] = false /\
  reconnectAttempts
    (listeners
       ([on_connect_error; on_connect_error]
        ++ on_connect
           :: [on_connect_error; on_disconnect; on_connect_error;
               on_connect_error; on_connect_error; on_connect_error;
               on_connect_error])
       socketManager)
  = 6.
Proof.
  assert (H : hasConnect
                [on_connect_error; on_disconnect; on_connect_error;
                 on_connect_error; on_connect_error; on_connect_error;
                 on_connect_error] = false) by reflexivity.
  split; [exact H |].
  exact (proj1 (reconnectAttempts_counts_errors_since_the_last_connect
                  [on_connect_error; on_connect_error] _ socketManager H)).
Defined.

(** ** A multiplayer scene and its socket *)

Lemma onTheSocket_position (m : SocketManager) (raceId : string)
  (position : PlayerPosition) :
  SocketManager_connected m = true ->
  onTheSocket m (SocketSendPlayerPosition raceId position)
  = [{| emitted_event := "player-position";
        emitted_payload := PositionPayload raceId position |}].
Proof.
  unfold SocketManager_connected, onTheSocket, sendPlayerPosition, emit.
  destruct (socket m); [reflexivity | discriminate].
Qed.

(** X20.  A multiplayer scene whose frames see the manager's [connected]:
    its ticks put a position message on the socket for every frame while
    the manager is connected, the race started and not paused and the
    player car there, and none at all otherwise, so none on a socket that
    has not connected yet.  [finishRace] does not look at [connected]: its
    finish message, with the race time in seconds, goes to whatever socket
    the manager has, connected or not, and is dropped only when there is
    none. *)
Theorem positions_need_a_connection_but_the_finish_does_not
  (WrapAngle : R -> R) (AngleBetween : R -> R -> R -> R -> R)
  (cb : bool) (m : SocketManager) (frames : list Frame) (s : Session) :
  Forall (fun f => frame_connected f = SocketManager_connected m) frames ->
  List.length
    (flat_map (onTheSocket m)
       (snd (ticks WrapAngle AngleBetween
               {| gameMode := multiplayer; onGameEnd := cb |} frames s)))
  = (if SocketManager_connected m && raceStarted s && negb (isPaused s)
        && match player s with Some _ => true | None => false end
     then List.length frames else 0%nat) /\
  flat_map (onTheSocket m)
    (snd (finishRace {| gameMode := multiplayer; onGameEnd := cb |} s))
  = match socket m with
    | Some _ =>
        [{| emitted_event := "race-finish";
            emitted_payload :=
              FinishPayload "current-race" (raceTime s / 1000)%R |}]
    | None => []
    end.
Proof.
  intro Hframes. split.
  - revert s. induction Hframes as [| f rest Hf _ IH]; intro s.
    + cbn. now destruct (_ && _).
    + rewrite ticks_cons. cbn [snd List.length].
      rewrite flat_map_app, length_app, IH.
      destruct (update_keeps_progress WrapAngle AngleBetween
                  {| gameMode := multiplayer; onGameEnd := cb |}
                  (frame_cursors f) (frame_connected f) (frame_delta f) s)
        as (_ & _ & _ & Hrs & Hp & _).
      destruct (update_multiplayer WrapAngle AngleBetween cb
                  (frame_cursors f) (frame_connected f) (frame_delta f) s)
        as (Hpl & [(Hc & pos & Hev) | (Hc & Hev)]);
        cbv zeta in *; rewrite Hrs, Hp, Hpl, Hev.
      * apply andb_prop in Hc. destruct Hc as (Hc1 & Hc2).
        rewrite Hf in Hc2. rewrite Hc2.
        cbn [flat_map]. rewrite onTheSocket_position by exact Hc2.
        cbn [andb] in *. rewrite <- !andb_assoc in Hc1.
        rewrite <- !andb_assoc, Hc1. reflexivity.
      * cbn [flat_map List.length].
        rewrite Hf in Hc.
        destruct (SocketManager_connected m); cbn [andb] in *;
          [| reflexivity].
        rewrite andb_true_r in Hc. rewrite Hc. reflexivity.
  - destruct cb; cbn; unfold SocketManager_finishRace, emit;
      destruct (socket m); reflexivity.
Qed.

Lemma positions_need_a_connection_witness :
  Forall
    (fun f =>
       frame_connected f
       = SocketManager_connected
           (SocketManager_connect
              {| socket_connected := false; socket_id := None |}
              socketManager))
    [frame upKey 16; frame leftKey 16] /\
  List.length
    (flat_map
       (onTheSocket
          (SocketManager_connect
             {| socket_connected := false; socket_id := None |}
             socketManager))
       (snd (ticks principalAngle angleBetween
               {| gameMode := multiplayer; onGameEnd := true |}
               [frame upKey 16; frame leftKey 16]
               (startedSession multiplayerProps))))
  = 0%nat.
Proof.
  assert (H : Forall
                (fun f =>
                   frame_connected f
                   = SocketManager_connected
                       (SocketManager_connect
                          {| socket_connected := false; socket_id := None |}
                          socketManager))
                [frame upKey 16; frame leftKey 16])
    by (repeat constructor).
  split; [exact H |].
  exact (proj1 (positions_need_a_connection_but_the_finish_does_not
                  principalAngle angleBetween true _ _
                  (startedSession multiplayerProps) H)).
Defined.

(** * The configuration of a session *)




